(** * UsersService (backend/src/users/users.service.ts)

    A shallow embedding of the account service of the mentor-management
    backend: the user documents it reads and writes, the collaborators it
    calls (logger, user model, image store, preferences service) and its
    five request handlers [uploadAvatar], [createUser], [getUserById],
    [updateUser] and [makeAdmin].

    Asynchronous handlers are embedded as computations in a state-and-
    exception monad over a [World]: the two document collections and the
    chronological journal of every call made to a collaborator.  An awaited
    promise that rejects is an exception; a promise that is not awaited
    cannot make the handler fail. *)

From Stdlib Require Import String Ascii.
From Stdlib.Strings Require Import Byte.
From stdpp Require Import base option list gmap strings.

Open Scope string_scope.

(** ** Enumerations *)

(** Modelled from the spec: [OperationStatus] is declared in
    filters/interface/response.interface, a file that is not at hand; the
    handlers only use its two members. *)
Inductive OperationStatus := SUCCESS | ERROR.

(** Modelled from the spec: [ROLE] is declared in auth/enums/role.enum;
    the role is one of a fixed enumeration with a lowest-privilege value and
    the administrator value. *)
Inductive ROLE := USER | ADMIN.

(** ** Documents and request payloads *)

(** Modelled from the spec: users.schema is not at hand; the persisted
    shape is
    {id, email, password?, firstName?, lastName?, bio?, country?, city?,
     website?, socials:{github?,twitter?,instagram?,linkedin?},
     avatar?:{url,publicId}, role}.
    The id is the key of the collection, see [World]. *)
Module User.
Record Avatar := { url : string; publicId : string }.

Record Socials := {
  github : option string;
  twitter : option string;
  instagram : option string;
  linkedin : option string
}.

Record t := {
  email : string;
  password : option string;
  firstName : option string;
  lastName : option string;
  bio : option string;
  country : option string;
  city : option string;
  website : option string;
  socials : Socials;
  avatar : option Avatar;
  role : ROLE
}.

Definition noSocials : Socials :=
  {| github := None; twitter := None; instagram := None; linkedin := None |}.
End User.

(** Modelled from the spec: dto/update-user.dto is not at hand;
    [updateUser] reads these ten optional string properties. *)
Module UpdateUserDTO.
Record t := {
  bio : option string;
  country : option string;
  city : option string;
  firstName : option string;
  lastName : option string;
  website : option string;
  github : option string;
  twitter : option string;
  instagram : option string;
  linkedin : option string
}.

(** The object literal [{}]. *)
Definition empty : t :=
  {| bio := None; country := None; city := None; firstName := None;
     lastName := None; website := None; github := None; twitter := None;
     instagram := None; linkedin := None |}.
End UpdateUserDTO.

(** Modelled from the spec: dto/create-user.dto is not at hand;
    [createUser] reads the [id] property and hands the whole object to the
    user model. *)
Module CreateUserDTO.
Record t := {
  id : string;
  email : string;
  password : option string;
  firstName : option string;
  lastName : option string
}.
End CreateUserDTO.

Module UserIdDTO.
Record t := { userId : string }.
End UserIdDTO.

(** [Express.Multer.File], reduced to the properties that identify the
    upload: its name and its content. *)
Module MulterFile.
Record t := { originalname : string; buffer : list byte }.
End MulterFile.

(** The two properties [uploadAvatar] destructures from the image store's
    answer. *)
Module UploadApiResponse.
Record t := { secure_url : string; public_id : string }.
End UploadApiResponse.

(** Modelled from the spec: the Preferences document lives in
    preferences/preferences.schema; it is a companion record that refers to
    its user by id. *)
Module Preferences.
Record t := { userId : string }.
End Preferences.

(** ** Responses, log entries and exceptions *)

Inductive Data :=
| EmptyObject
| UserDocument (user : User.t).

(** [HttpResponseType<T>]: the {status, message, data} envelope. *)
Record HttpResponseType := {
  status : OperationStatus;
  message : string;
  data : Data
}.

(** What is handed to [logger.error] or to an exception constructor: a bare
    string or an object literal. *)
Inductive Payload :=
| Text (s : string)
| Object (r : HttpResponseType).

Definition isStructured (p : Payload) : bool :=
  match p with Text _ => false | Object _ => true end.

Inductive Exception :=
| BadRequestException (body : Payload)
| NotFoundException (body : Payload)
| Rejection (call : string).

(** ** Update documents *)

(** The keys that [updateUser] can put into its [$set] object. *)
Inductive Path :=
| P_bio | P_country | P_city | P_firstName | P_lastName | P_website
| P_github | P_twitter | P_instagram | P_linkedin.

Definition pathName (p : Path) : string :=
  match p with
  | P_bio => "bio" | P_country => "country" | P_city => "city"
  | P_firstName => "firstName" | P_lastName => "lastName"
  | P_website => "website"
  | P_github => "socials.github" | P_twitter => "socials.twitter"
  | P_instagram => "socials.instagram" | P_linkedin => "socials.linkedin"
  end.

(** The argument of [document.updateOne]. *)
Inductive UpdateQuery :=
| SetPaths (kvs : list (Path * string))   (* { $set: { ... } } *)
| SetRole (r : ROLE)                      (* { role: ... } *)
| Overwrite (doc : User.t).               (* the document itself *)

Module Update.
Import User.

Definition withSocials (s : Socials) (u : t) : t :=
  {| email := email u; password := password u; firstName := firstName u;
     lastName := lastName u; bio := bio u; country := country u;
     city := city u; website := website u; socials := s;
     avatar := avatar u; role := role u |}.

Definition withAvatar (a : option Avatar) (u : t) : t :=
  {| email := email u; password := password u; firstName := firstName u;
     lastName := lastName u; bio := bio u; country := country u;
     city := city u; website := website u; socials := socials u;
     avatar := a; role := role u |}.

Definition withRole (r : ROLE) (u : t) : t :=
  {| email := email u; password := password u; firstName := firstName u;
     lastName := lastName u; bio := bio u; country := country u;
     city := city u; website := website u; socials := socials u;
     avatar := avatar u; role := r |}.

(** The profile properties that are plain top-level strings. *)
Definition withProfile (fn ln b co ci w : option string) (u : t) : t :=
  {| email := email u; password := password u; firstName := fn;
     lastName := ln; bio := b; country := co; city := ci; website := w;
     socials := socials u; avatar := avatar u; role := role u |}.

Definition setPath (p : Path) (v : string) (u : t) : t :=
  let s := socials u in
  match p with
  | P_bio =>
      withProfile (firstName u) (lastName u) (Some v) (country u) (city u)
        (website u) u
  | P_country =>
      withProfile (firstName u) (lastName u) (bio u) (Some v) (city u)
        (website u) u
  | P_city =>
      withProfile (firstName u) (lastName u) (bio u) (country u) (Some v)
        (website u) u
  | P_firstName =>
      withProfile (Some v) (lastName u) (bio u) (country u) (city u)
        (website u) u
  | P_lastName =>
      withProfile (firstName u) (Some v) (bio u) (country u) (city u)
        (website u) u
  | P_website =>
      withProfile (firstName u) (lastName u) (bio u) (country u) (city u)
        (Some v) u
  | P_github =>
      withSocials {| github := Some v; twitter := twitter s;
                     instagram := instagram s; linkedin := linkedin s |} u
  | P_twitter =>
      withSocials {| github := github s; twitter := Some v;
                     instagram := instagram s; linkedin := linkedin s |} u
  | P_instagram =>
      withSocials {| github := github s; twitter := twitter s;
                     instagram := Some v; linkedin := linkedin s |} u
  | P_linkedin =>
      withSocials {| github := github s; twitter := twitter s;
                     instagram := instagram s; linkedin := Some v |} u
  end.

Definition getPath (p : Path) (u : t) : option string :=
  match p with
  | P_bio => bio u | P_country => country u | P_city => city u
  | P_firstName => firstName u | P_lastName => lastName u
  | P_website => website u
  | P_github => github (socials u) | P_twitter => twitter (socials u)
  | P_instagram => instagram (socials u)
  | P_linkedin => linkedin (socials u)
  end.

(** [$set] assigns its keys one after the other. *)
Definition applySet (kvs : list (Path * string)) (u : t) : t :=
  fold_left (fun acc kv => setPath (fst kv) (snd kv) acc) kvs u.

Definition apply (q : UpdateQuery) (u : t) : t :=
  match q with
  | SetPaths kvs => applySet kvs u
  | SetRole r => withRole r u
  | Overwrite doc => doc
  end.
End Update.

(** ** The world and the handler monad *)

Inductive Call :=
| LoggerLog (msg : string)
| LoggerError (p : Payload)
| FindById (id : string)
| Create (doc : User.t)
| UpdateOne (id : string) (q : UpdateQuery)
| DeleteImage (publicId : string)
| UploadImage (file : MulterFile.t)
| CreatePreferences (userId : string).

Record World := {
  users : gmap string User.t;          (* the users collection, by id *)
  preferences : list Preferences.t;    (* the preferences collection *)
  calls : list Call                    (* journal, oldest call first *)
}.

Definition M (A : Type) : Type := World -> (Exception + A) * World.

Definition ret {A} (a : A) : M A := fun w => (inr a, w).

Definition bind {A B} (m : M A) (k : A -> M B) : M B :=
  fun w =>
    match m w with
    | (inl e, w') => (inl e, w')
    | (inr a, w') => k a w'
    end.

Definition throw {A} (e : Exception) : M A := fun w => (inl e, w).

(** [promise.catch(handler)]. *)
Definition catch {A} (m : M A) (handler : Exception -> M A) : M A :=
  fun w =>
    match m w with
    | (inl e, w') => handler e w'
    | (inr a, w') => (inr a, w')
    end.

Definition record (c : Call) : M unit :=
  fun w =>
    (inr tt,
     {| users := users w; preferences := preferences w;
        calls := (calls w ++ [c])%list |}).

Definition modifyUsers (f : gmap string User.t -> gmap string User.t)
  : M unit :=
  fun w =>
    (inr tt,
     {| users := f (users w); preferences := preferences w;
        calls := calls w |}).

Definition modifyPreferences (f : list Preferences.t -> list Preferences.t)
  : M unit :=
  fun w =>
    (inr tt,
     {| users := users w; preferences := f (preferences w);
        calls := calls w |}).

Definition getUsers : M (gmap string User.t) := fun w => (inr (users w), w).

Global Instance M_ret : MRet M := @ret.
Global Instance M_bind : MBind M := fun A B k m => bind m k.

(** JavaScript truthiness of an optional string property: [undefined] and
    the empty string are falsy, every other string is truthy. *)
Definition truthy (v : option string) : bool :=
  match v with
  | Some s => negb (String.eqb s "")
  | None => false
  end.

(** A call whose promise is not awaited: the call is issued, which the
    journal records, and the handler goes on at once.  The promise is still
    pending when the handler returns: the collections are as they were, and
    a later rejection never reaches the handler. *)
Definition detached {A} (m : M A) : M unit :=
  fun w =>
    (inr tt,
     {| users := users w; preferences := preferences w;
        calls := calls (snd (m w)) |}).

(** What a pending call does to the collections once its promise settles;
    the call is in the journal already. *)
Definition settle {A} (m : M A) : M unit :=
  fun w =>
    (inr tt,
     {| users := users (snd (m w)); preferences := preferences (snd (m w));
        calls := calls w |}).

(** ** The service *)

Section UsersService.

(** [startsWithHttp] of utils/starts-with-http, a file that is not at
    hand: any function on strings. *)
Variable startsWithHttp : string -> string.

(** How the image store settles the two promises of [CloudinaryService]:
    the answer to an upload ([None]: the promise rejects) and whether a
    deletion resolves. *)
Variable imageStoreUpload : MulterFile.t -> option UploadApiResponse.t.
Variable imageStoreDelete : string -> bool.

(** The id the persistence layer gives to a new document of the users
    collection; it is told the [id] property of the creation payload. *)
Variable assignId : gmap string User.t -> string -> string.

(** Whether the write of the preferences service succeeds. *)
Variable preferencesWrite : string -> bool.

(** *** Collaborators *)

Definition logger_log (msg : string) : M unit := record (LoggerLog msg).

Definition logger_error (p : Payload) : M unit := record (LoggerError p).

Definition userModel_findById (id : string) : M (option User.t) :=
  record (FindById id);;
  m ← getUsers;
  mret (m !! id).

(** The document the user model builds from a creation payload; the role
    defaults to the lowest-privilege value. *)
Definition documentOf (dto : CreateUserDTO.t) : User.t :=
  {| User.email := CreateUserDTO.email dto;
     User.password := CreateUserDTO.password dto;
     User.firstName := CreateUserDTO.firstName dto;
     User.lastName := CreateUserDTO.lastName dto;
     User.bio := None; User.country := None; User.city := None;
     User.website := None; User.socials := User.noSocials;
     User.avatar := None; User.role := USER |}.

Definition userModel_create (dto : CreateUserDTO.t) : M unit :=
  record (Create (documentOf dto));;
  modifyUsers
    (fun m => <[assignId m (CreateUserDTO.id dto) := documentOf dto]> m).

(** [document.updateOne(q)] updates the stored document that has the
    document's id. *)
Definition document_updateOne (id : string) (q : UpdateQuery) : M unit :=
  record (UpdateOne id q);;
  modifyUsers (alter (Update.apply q) id).

Definition cloudinary_deleteImage (publicId : string) : M unit :=
  record (DeleteImage publicId);;
  if imageStoreDelete publicId then mret tt
  else throw (Rejection "deleteImage").

Definition cloudinary_uploadImage (file : MulterFile.t)
  : M UploadApiResponse.t :=
  record (UploadImage file);;
  match imageStoreUpload file with
  | Some r => mret r
  | None => throw (Rejection "uploadImage")
  end.

(** Modelled from the spec: preferences/preferences.service is not at hand;
    createPreferences writes one companion record keyed by the id it is
    given. *)
Definition preferenceService_createPreferences (userId : string) : M unit :=
  record (CreatePreferences userId);;
  if preferencesWrite userId
  then modifyPreferences
         (fun l => (l ++ [{| Preferences.userId := userId |}])%list)
  else throw (Rejection "createPreferences").

(** *** Handlers *)

Definition errorRecord (msg : string) : HttpResponseType :=
  {| status := ERROR; message := msg; data := EmptyObject |}.

Definition success (msg : string) (d : Data) : HttpResponseType :=
  {| status := SUCCESS; message := msg; data := d |}.

(** [if (user?.avatar?.publicId) await deleteImage(user?.avatar?.publicId)] *)
Definition deleteOldAvatar (user : User.t) : M unit :=
  match User.avatar user with
  | Some a =>
      if truthy (Some (User.publicId a))
      then cloudinary_deleteImage (User.publicId a)
      else mret tt
  | None => mret tt
  end.

Definition uploadAvatar (id : string) (avatar : option MulterFile.t)
  : M HttpResponseType :=
  match avatar with
  | None =>
      logger_error (Object (errorRecord "file is empty"));;
      throw (BadRequestException (Object (errorRecord "file is empty")))
  | Some file =>
      found ← userModel_findById id;
      match found with
      | None =>
          logger_error (Object (errorRecord "User not found"));;
          throw (NotFoundException (Text "User not found"))
      | Some user =>
          deleteOldAvatar user;;
          r ← catch (cloudinary_uploadImage file)
                (fun _ =>
                   logger_error (Object (errorRecord "file is empty"));;
                   throw (BadRequestException (Text "file is empty")));
          let user :=
            Update.withAvatar
              (Some {| User.url := UploadApiResponse.secure_url r;
                       User.publicId := UploadApiResponse.public_id r |})
              user in
          document_updateOne id (Overwrite user);;
          mret (success "Updated successfully" EmptyObject)
      end
  end.

Definition createUser (createUserDto : CreateUserDTO.t) : M unit :=
  logger_log "Creating a new user";;
  detached (userModel_create createUserDto);;
  logger_log "Creating user preferences";;
  detached
    (preferenceService_createPreferences (CreateUserDTO.id createUserDto)).

Definition getUserById (id : string) : M HttpResponseType :=
  found ← userModel_findById id;
  match found with
  | None =>
      logger_error (Object (errorRecord "User not found"));;
      throw (NotFoundException (Text "User not found"))
  | Some user => mret (success "" (UserDocument user))
  end.

(** [...(value && { key: f(value) })]: the key is spread into the object
    only when the value is truthy. *)
Definition spread (value : option string) (key : Path)
    (f : string -> string) : list (Path * string) :=
  match value with
  | Some v => if truthy value then [(key, f v)] else []
  | None => []
  end.

Definition setOf (dto : UpdateUserDTO.t) : list (Path * string) :=
  (spread (UpdateUserDTO.bio dto) P_bio id
   ++ spread (UpdateUserDTO.country dto) P_country id
   ++ spread (UpdateUserDTO.city dto) P_city id
   ++ spread (UpdateUserDTO.firstName dto) P_firstName id
   ++ spread (UpdateUserDTO.lastName dto) P_lastName id
   ++ spread (UpdateUserDTO.website dto) P_website startsWithHttp
   ++ spread (UpdateUserDTO.github dto) P_github startsWithHttp
   ++ spread (UpdateUserDTO.twitter dto) P_twitter startsWithHttp
   ++ spread (UpdateUserDTO.instagram dto) P_instagram startsWithHttp
   ++ spread (UpdateUserDTO.linkedin dto) P_linkedin startsWithHttp)%list.

Definition updateUser (id : string) (updateUserDto : option UpdateUserDTO.t)
  : M HttpResponseType :=
  match updateUserDto with
  | None =>
      logger_error (Text "No changes made");;
      throw (BadRequestException (Text "No changes made"))
  | Some dto =>
      found ← userModel_findById id;
      match found with
      | None =>
          logger_error (Object (errorRecord "User not found"));;
          throw (NotFoundException (Text "User not found"))
      | Some _ =>
          document_updateOne id (SetPaths (setOf dto));;
          mret (success "Account updated successfully" EmptyObject)
      end
  end.

Definition makeAdmin (userIdDto : UserIdDTO.t) : M HttpResponseType :=
  found ← userModel_findById (UserIdDTO.userId userIdDto);
  match found with
  | None =>
      logger_error (Object (errorRecord "User not found"));;
      throw (NotFoundException (Text "User not found"))
  | Some _ =>
      document_updateOne (UserIdDTO.userId userIdDto) (SetRole ADMIN);;
      mret (success "User role updated successfully" EmptyObject)
  end.

End UsersService.

(** Whether a link carries a scheme: following the name of the helper
    below, it does when it starts with "http". *)
Definition hasScheme (url : string) : bool := String.prefix "http" url.

(** Modelled from the spec: utils/starts-with-http is not at hand.  A link
    is normalized by prefixing a scheme when it is missing: "example.com"
    becomes "https://example.com" and "https://example.com" is kept. *)
Definition startsWithHttp (url : string) : string :=
  if hasScheme url then url else "https://" ++ url.

(** ** Sign-up and lookup by email *)

(** The two properties [signUpWithEmailAndPassword] reads from its
    argument. *)
Module SignupWithEmailAndPasswordDTO.
Record t := { email : string; password : string }.
End SignupWithEmailAndPasswordDTO.

Section SignUp.

(** [hashPassword] of utils/hash-password.utils, a file that is not at
    hand: any function on strings. *)
Variable hashPassword : string -> string.

(** The id the persistence layer gives to a new document whose payload
    carries no [id] property. *)
Variable generateId : gmap string User.t -> string.

(** The payload of a federated sign-up (dto/signup-with-google.dto is not at
    hand) and the document the user model builds from it; the handler hands
    the payload over whole. *)
Variable SignupWithGoogleDTO : Type.
Variable googleDocument : SignupWithGoogleDTO -> User.t.

(** [userModel.create(payload)], awaited: the promise settles with the
    created document. *)
Definition userModel_createDocument (doc : User.t) : M (string * User.t) :=
  record (Create doc);;
  m ← getUsers;
  modifyUsers (insert (generateId m) doc);;
  mret (generateId m, doc).

(** The document built from [{ email, password }]: every other property is
    absent and the role is the lowest-privilege value. *)
Definition credentialsDocument (email hash : string) : User.t :=
  {| User.email := email; User.password := Some hash;
     User.firstName := None; User.lastName := None; User.bio := None;
     User.country := None; User.city := None; User.website := None;
     User.socials := User.noSocials; User.avatar := None;
     User.role := USER |}.

Definition signUpwithGoogle (signupWithGoogleDTO : SignupWithGoogleDTO)
  : M (string * User.t) :=
  logger_log "Creating a new user";;
  userModel_createDocument (googleDocument signupWithGoogleDTO).

Definition signUpWithEmailAndPassword
    (signUpWithEmailAndPassword : SignupWithEmailAndPasswordDTO.t)
  : M (string * User.t) :=
  userModel_createDocument
    (credentialsDocument
       (SignupWithEmailAndPasswordDTO.email signUpWithEmailAndPassword)
       (hashPassword
          (SignupWithEmailAndPasswordDTO.password
             signUpWithEmailAndPassword))).

End SignUp.

(** [userModel.findOne({ email })]: a stored document with that email, with
    its id, or null.  The journal has no entry for this read. *)
Definition userModel_findOne (email : string) : M (option (string * User.t)) :=
  m ← getUsers;
  mret (List.find (fun kv => String.eqb (User.email (snd kv)) email)
          (map_to_list m)).

Definition getUserByEmail (email : string) : M (option (string * User.t)) :=
  userModel_findOne email.

(** ** Vocabulary of the statements *)

(** The world after some more calls were journalled. *)
Definition logged (w : World) (cs : list Call) : World :=
  {| users := users w; preferences := preferences w;
     calls := (calls w ++ cs)%list |}.

Definition withUsers (m : gmap string User.t) (w : World) : World :=
  {| users := m; preferences := preferences w; calls := calls w |}.

(** The calls a handler made when it took [w] to [w']: what the journal
    holds beyond its old length. *)
Definition issued (w w' : World) : list Call :=
  drop (length (calls w)) (calls w').

(** A call that reaches the persistence layer, the image store or the
    preferences service (the logger is not one of them). *)
Definition isCollaboratorCall (c : Call) : bool :=
  match c with
  | LoggerLog _ | LoggerError _ => false
  | _ => true
  end.

Definition isImageStoreCall (c : Call) : bool :=
  match c with
  | DeleteImage _ | UploadImage _ => true
  | _ => false
  end.

Definition isWrite (c : Call) : bool :=
  match c with
  | Create _ | UpdateOne _ _ | CreatePreferences _ => true
  | _ => false
  end.

(** Two documents agree on the identity, the credential, the authorization
    and the avatar of the account. *)
Definition sameAccount (u u' : User.t) : Prop :=
  User.email u' = User.email u
  /\ User.password u' = User.password u
  /\ User.role u' = User.role u
  /\ User.avatar u' = User.avatar u.

(** The payloads handed to [logger.error], oldest first. *)
Definition errorsLogged (cs : list Call) : list Payload :=
  omap (fun c => match c with LoggerError p => Some p | _ => None end) cs.

(** The asset [uploadAvatar] asks the image store to delete first: the
    [publicId] of the stored avatar when there is one and it is truthy. *)
Definition oldAsset (user : User.t) : option string :=
  match User.avatar user with
  | Some a =>
      if truthy (Some (User.publicId a)) then Some (User.publicId a) else None
  | None => None
  end.

(** Two documents differ at most in the avatar. *)
Definition sameButAvatar (u u' : User.t) : Prop :=
  User.email u' = User.email u
  /\ User.password u' = User.password u
  /\ User.role u' = User.role u
  /\ forall p : Path, Update.getPath p u' = Update.getPath p u.

(** Every property of the patch is absent or falsy. *)
Definition allFalsy (dto : UpdateUserDTO.t) : bool :=
  negb (truthy (UpdateUserDTO.bio dto))
  && negb (truthy (UpdateUserDTO.country dto))
  && negb (truthy (UpdateUserDTO.city dto))
  && negb (truthy (UpdateUserDTO.firstName dto))
  && negb (truthy (UpdateUserDTO.lastName dto))
  && negb (truthy (UpdateUserDTO.website dto))
  && negb (truthy (UpdateUserDTO.github dto))
  && negb (truthy (UpdateUserDTO.twitter dto))
  && negb (truthy (UpdateUserDTO.instagram dto))
  && negb (truthy (UpdateUserDTO.linkedin dto)).

(** ** Sample data *)

Module Sample.
Definition ada : User.t :=
  {| User.email := "ada@example.com"; User.password := Some "$2b$10$hash";
     User.firstName := Some "Ada"; User.lastName := Some "Lovelace";
     User.bio := Some "Analyst"; User.country := None; User.city := None;
     User.website := None; User.socials := User.noSocials;
     User.avatar :=
       Some {| User.url := "https://img.example/ada.png";
               User.publicId := "avatars/ada" |};
     User.role := USER |}.

Definition world : World :=
  {| users := {[ "u1" := ada ]}; preferences := []; calls := [] |}.

Definition emptyFile : MulterFile.t :=
  {| MulterFile.originalname := "avatar.png"; MulterFile.buffer := [] |}.

Definition photo : MulterFile.t :=
  {| MulterFile.originalname := "avatar.png";
     MulterFile.buffer := [x89; x50; x4e; x47] |}.

(** An image store that rejects empty uploads and deletes on request. *)
Definition upload (file : MulterFile.t) : option UploadApiResponse.t :=
  match MulterFile.buffer file with
  | [] => None
  | _ :: _ =>
      Some {| UploadApiResponse.secure_url := "https://img.example/new.png";
              UploadApiResponse.public_id := "avatars/new" |}
  end.

Definition delete (publicId : string) : bool := true.

(** A persistence layer that generates the id of a new document itself. *)
Definition objectId (m : gmap string User.t) (hint : string) : string :=
  "65a1f0c2".

Definition grace : CreateUserDTO.t :=
  {| CreateUserDTO.id := "42"; CreateUserDTO.email := "grace@example.com";
     CreateUserDTO.password := None; CreateUserDTO.firstName := Some "Grace";
     CreateUserDTO.lastName := None |}.

(** A persistence layer that numbers its documents. *)
Definition nextId (m : gmap string User.t) : string :=
  match size m with
  | 0 => "id-0"
  | 1 => "id-1"
  | _ => "id-n"
  end.

Definition hash (password : string) : string := "$2b$10$" ++ password.

Definition linus : SignupWithEmailAndPasswordDTO.t :=
  {| SignupWithEmailAndPasswordDTO.email := "linus@example.com";
     SignupWithEmailAndPasswordDTO.password := "s3cret" |}.

(** A stored user who has no avatar yet. *)
Definition bob : User.t :=
  {| User.email := "bob@example.com"; User.password := None;
     User.firstName := Some "Bob"; User.lastName := None; User.bio := None;
     User.country := None; User.city := None; User.website := None;
     User.socials := User.noSocials; User.avatar := None;
     User.role := ADMIN |}.

Definition world2 : World :=
  {| users := {[ "u1" := ada; "u2" := bob ]}; preferences := [];
     calls := [] |}.

(** An image store whose deletions are rejected. *)
Definition rejectDelete (publicId : string) : bool := false.

(** A stored user whose avatar names no asset: its publicId is empty. *)
Definition carol : User.t :=
  {| User.email := "carol@example.com"; User.password := None;
     User.firstName := Some "Carol"; User.lastName := None; User.bio := None;
     User.country := None; User.city := None; User.website := None;
     User.socials := User.noSocials;
     User.avatar :=
       Some {| User.url := "https://img.example/carol.png";
               User.publicId := "" |};
     User.role := USER |}.

Definition world3 : World :=
  {| users := {[ "u3" := carol ]}; preferences := []; calls := [] |}.
End Sample.

(** * Properties *)

(** ** Running the collaborators *)

Lemma run_bind {A B} (m : M A) (k : A -> M B) (w : World) :
  (m ≫= k) w =
  match m w with
  | (inl e, w') => (inl e, w')
  | (inr a, w') => k a w'
  end.
Proof. reflexivity. Qed.

Lemma logged_logged (w : World) (cs ds : list Call) :
  logged (logged w cs) ds = logged w (cs ++ ds).
Proof. unfold logged; simpl. by rewrite <- app_assoc. Qed.

Lemma issued_logged (w : World) (cs : list Call) : issued w (logged w cs) = cs.
Proof. unfold issued, logged; simpl. by rewrite drop_app_length. Qed.

Lemma issued_withUsers_logged (w : World) m (cs : list Call) :
  issued w (withUsers m (logged w cs)) = cs.
Proof. unfold issued, withUsers, logged; simpl. by rewrite drop_app_length. Qed.

Lemma run_ret {A} (a : A) (w : World) : (mret a : M A) w = (inr a, w).
Proof. reflexivity. Qed.

Lemma run_logger_error (p : Payload) (w : World) :
  logger_error p w = (inr tt, logged w [LoggerError p]).
Proof. reflexivity. Qed.

Lemma run_findById (id : string) (w : World) :
  userModel_findById id w = (inr (users w !! id), logged w [FindById id]).
Proof. reflexivity. Qed.

Lemma run_updateOne (id : string) (q : UpdateQuery) (w : World) :
  document_updateOne id q w =
  (inr tt,
   withUsers (alter (Update.apply q) id (users w)) (logged w [UpdateOne id q])).
Proof. reflexivity. Qed.

Lemma run_failure {A} (msg : string) (e : Exception) (w : World) :
  (logger_error (Object (errorRecord msg)) ≫= fun _ => throw (A := A) e) w =
  (inl e, logged w [LoggerError (Object (errorRecord msg))]).
Proof. reflexivity. Qed.

#[global] Opaque userModel_findById document_updateOne logger_error.

Ltac run :=
  repeat first
    [ rewrite run_failure
    | rewrite run_bind
    | rewrite run_ret
    | rewrite run_findById
    | rewrite run_updateOne
    | rewrite run_logger_error
    | rewrite logged_logged ];
  simpl app.

(** ** getUserById *)

Lemma getUserById_run (id : string) (w : World) :
  getUserById id w =
  match users w !! id with
  | None =>
      (inl (NotFoundException (Text "User not found")),
       logged w [FindById id;
                 LoggerError (Object (errorRecord "User not found"))])
  | Some user =>
      (inr (success "" (UserDocument user)), logged w [FindById id])
  end.
Proof.
  unfold getUserById. run.
  destruct (users w !! id) as [user|]; [reflexivity|]. by run.
Qed.

(** C7. For every id, getUserById fails with NotFound when no user record
    matches the id; for an existing id it returns a success envelope whose
    data member is the stored user record.  Neither case changes a stored
    document. *)
Theorem getUserById_found_or_NotFound (id : string) (w : World) :
  (users w !! id = None ->
   exists body, fst (getUserById id w) = inl (NotFoundException body))
  /\ (forall user : User.t,
        users w !! id = Some user ->
        exists envelope,
          fst (getUserById id w) = inr envelope
          /\ status envelope = SUCCESS
          /\ data envelope = UserDocument user)
  /\ users (snd (getUserById id w)) = users w.
Proof.
  rewrite getUserById_run.
  destruct (users w !! id) as [stored|] eqn:Hfind; simpl.
  - split; [discriminate|]. split; [|reflexivity].
    intros user [= <-]. by eexists.
  - split; [by eexists|]. split; [discriminate|reflexivity].
Qed.

Lemma getUserById_found_or_NotFound_witness :
  (exists body,
     fst (getUserById "nobody" Sample.world) = inl (NotFoundException body))
  /\ (exists envelope,
        fst (getUserById "u1" Sample.world) = inr envelope
        /\ status envelope = SUCCESS
        /\ data envelope = UserDocument Sample.ada).
Proof.
  split.
  - apply (proj1 (getUserById_found_or_NotFound "nobody" Sample.world)).
    reflexivity.
  - apply (proj1 (proj2 (getUserById_found_or_NotFound "u1" Sample.world))).
    reflexivity.
Defined.

(** ** makeAdmin *)

Lemma makeAdmin_run (dto : UserIdDTO.t) (w : World) :
  makeAdmin dto w =
  let id := UserIdDTO.userId dto in
  match users w !! id with
  | None =>
      (inl (NotFoundException (Text "User not found")),
       logged w [FindById id;
                 LoggerError (Object (errorRecord "User not found"))])
  | Some _ =>
      (inr (success "User role updated successfully" EmptyObject),
       withUsers (alter (Update.withRole ADMIN) id (users w))
         (logged w [FindById id; UpdateOne id (SetRole ADMIN)]))
  end.
Proof.
  unfold makeAdmin. run.
  destruct (users w !! UserIdDTO.userId dto) as [user|]; by run.
Qed.

Lemma withRole_twice (r : ROLE) (user : User.t) :
  Update.withRole r (Update.withRole r user) = Update.withRole r user.
Proof. reflexivity. Qed.

Lemma alter_twice (f : User.t -> User.t) (id : string)
    (m : gmap string User.t) :
  (forall x, f (f x) = f x) -> alter f id (alter f id m) = alter f id m.
Proof.
  intros Hf. apply map_eq. intros j.
  destruct (decide (id = j)) as [<-|Hne].
  - rewrite !lookup_alter_eq. destruct (m !! id); simpl; [|done].
    by rewrite Hf.
  - by rewrite !lookup_alter_ne.
Qed.

(** C8. makeAdmin fails with NotFound when the user does not exist; for an
    existing user it sets the role to the administrator value, touches no
    other user and returns an envelope whose status is SUCCESS and whose
    payload is the empty object; and a second makeAdmin for the same user
    ends in the same collections, with the same answer, as the first. *)
Theorem makeAdmin_sets_role_idempotent (dto : UserIdDTO.t) (w : World) :
  let once := makeAdmin dto w in
  let twice := makeAdmin dto (snd once) in
  (users w !! UserIdDTO.userId dto = None ->
   exists body, fst once = inl (NotFoundException body))
  /\ (forall user : User.t,
        users w !! UserIdDTO.userId dto = Some user ->
        (exists envelope,
           fst once = inr envelope
           /\ status envelope = SUCCESS
           /\ message envelope = "User role updated successfully"
           /\ data envelope = EmptyObject)
        /\ (exists user',
              users (snd once) !! UserIdDTO.userId dto = Some user'
              /\ User.role user' = ADMIN
              /\ User.email user' = User.email user
              /\ User.password user' = User.password user
              /\ User.avatar user' = User.avatar user
              /\ forall p : Path,
                   Update.getPath p user' = Update.getPath p user)
        /\ forall other, other <> UserIdDTO.userId dto ->
             users (snd once) !! other = users w !! other)
  /\ users (snd twice) = users (snd once)
  /\ preferences (snd twice) = preferences (snd once)
  /\ fst twice = fst once.
Proof.
  intros once twice. subst once twice.
  rewrite !makeAdmin_run. cbv zeta.
  set (id := UserIdDTO.userId dto).
  destruct (users w !! id) as [stored|] eqn:Hfind.
  - cbn [fst snd users withUsers logged preferences].
    rewrite lookup_alter_eq, Hfind. cbn [fmap option_fmap option_map].
    split; [discriminate|]. split.
    + intros user [= <-]. split; [by eexists|]. split.
      * eexists. split; [reflexivity|]. by repeat split.
      * intros other Hother. by rewrite lookup_alter_ne.
    + repeat split.
      apply alter_twice, withRole_twice.
  - cbn [fst snd users withUsers logged preferences]. rewrite Hfind.
    split; [by eexists|]. split; [discriminate|]. by repeat split.
Qed.

Lemma makeAdmin_sets_role_idempotent_witness :
  (exists body,
     fst (makeAdmin {| UserIdDTO.userId := "nobody" |} Sample.world)
     = inl (NotFoundException body))
  /\ (exists envelope,
        fst (makeAdmin {| UserIdDTO.userId := "u1" |} Sample.world)
        = inr envelope
        /\ status envelope = SUCCESS
        /\ message envelope = "User role updated successfully"
        /\ data envelope = EmptyObject).
Proof.
  split.
  - apply (proj1 (makeAdmin_sets_role_idempotent
                    {| UserIdDTO.userId := "nobody" |} Sample.world)).
    reflexivity.
  - apply (proj1 (proj2 (makeAdmin_sets_role_idempotent
                           {| UserIdDTO.userId := "u1" |} Sample.world))
             Sample.ada).
    reflexivity.
Defined.

(** ** updateUser *)

Section UpdateUser.
Variable normalize : string -> string.

Lemma updateUser_absent_run (id : string) (w : World) :
  updateUser normalize id None w =
  (inl (BadRequestException (Text "No changes made")),
   logged w [LoggerError (Text "No changes made")]).
Proof. unfold updateUser. by run. Qed.

Lemma updateUser_run (id : string) (dto : UpdateUserDTO.t) (w : World) :
  updateUser normalize id (Some dto) w =
  match users w !! id with
  | None =>
      (inl (NotFoundException (Text "User not found")),
       logged w [FindById id;
                 LoggerError (Object (errorRecord "User not found"))])
  | Some _ =>
      (inr (success "Account updated successfully" EmptyObject),
       withUsers
         (alter (Update.applySet (setOf normalize dto)) id (users w))
         (logged w [FindById id;
                    UpdateOne id (SetPaths (setOf normalize dto))]))
  end.
Proof.
  unfold updateUser. run.
  destruct (users w !! id) as [user|]; by run.
Qed.

(** *** What a [$set] object does to a document *)

Lemma applySet_app (kvs kvs' : list (Path * string)) (u : User.t) :
  Update.applySet (kvs ++ kvs') u
  = Update.applySet kvs' (Update.applySet kvs u).
Proof. unfold Update.applySet. apply fold_left_app. Qed.

Lemma getPath_setPath_eq (p : Path) (v : string) (u : User.t) :
  Update.getPath p (Update.setPath p v u) = Some v.
Proof. by destruct p. Qed.

Lemma getPath_setPath_ne (p q : Path) (v : string) (u : User.t) :
  p <> q -> Update.getPath p (Update.setPath q v u) = Update.getPath p u.
Proof. by destruct p, q. Qed.

Lemma getPath_spread_eq (p : Path) (value : option string)
    (f : string -> string) (u : User.t) :
  Update.getPath p (Update.applySet (spread value p f) u)
  = if truthy value then f <$> value else Update.getPath p u.
Proof.
  unfold spread. destruct value as [v|]; [|reflexivity].
  destruct (truthy (Some v)); [|reflexivity].
  apply getPath_setPath_eq.
Qed.

Lemma getPath_spread_ne (p q : Path) (value : option string)
    (f : string -> string) (u : User.t) :
  p <> q ->
  Update.getPath p (Update.applySet (spread value q f) u)
  = Update.getPath p u.
Proof.
  intros Hpq. unfold spread. destruct value as [v|]; [|reflexivity].
  destruct (truthy (Some v)); [|reflexivity].
  by apply getPath_setPath_ne.
Qed.

Lemma setPath_sameAccount (p : Path) (v : string) (u : User.t) :
  sameAccount u (Update.setPath p v u).
Proof. by destruct p. Qed.

Lemma applySet_sameAccount (kvs : list (Path * string)) (u : User.t) :
  sameAccount u (Update.applySet kvs u).
Proof.
  revert u. induction kvs as [|[p v] kvs IH]; intros u.
  - by repeat split.
  - specialize (IH (Update.setPath p v u)).
    destruct (setPath_sameAccount p v u) as (He & Hp & Hr & Ha).
    destruct IH as (He' & Hp' & Hr' & Ha').
    repeat split; simpl; congruence.
Qed.

Lemma setOf_empty : setOf normalize UpdateUserDTO.empty = [].
Proof. reflexivity. Qed.

Lemma truthy_Some (v : string) : v <> "" -> truthy (Some v) = true.
Proof.
  intros Hv. unfold truthy. by destruct (String.eqb_spec v "").
Qed.

Lemma truthy_empty_string : truthy (Some "") = false.
Proof. reflexivity. Qed.
End UpdateUser.

(** Reads a property of the updated document off the [$set] object, from the
    last key spread into it back to the first. *)
Ltac peel :=
  repeat first
    [ rewrite getPath_spread_eq
    | rewrite getPath_spread_ne by discriminate ].

Lemma applySet_setOf_paths (normalize : string -> string)
    (dto : UpdateUserDTO.t) (u : User.t) (p : Path) :
  Update.getPath p (Update.applySet (setOf normalize dto) u)
  = match p with
    | P_bio =>
        if truthy (UpdateUserDTO.bio dto) then UpdateUserDTO.bio dto
        else User.bio u
    | P_country =>
        if truthy (UpdateUserDTO.country dto) then UpdateUserDTO.country dto
        else User.country u
    | P_city =>
        if truthy (UpdateUserDTO.city dto) then UpdateUserDTO.city dto
        else User.city u
    | P_firstName =>
        if truthy (UpdateUserDTO.firstName dto)
        then UpdateUserDTO.firstName dto else User.firstName u
    | P_lastName =>
        if truthy (UpdateUserDTO.lastName dto)
        then UpdateUserDTO.lastName dto else User.lastName u
    | P_website =>
        if truthy (UpdateUserDTO.website dto)
        then normalize <$> UpdateUserDTO.website dto else User.website u
    | P_github =>
        if truthy (UpdateUserDTO.github dto)
        then normalize <$> UpdateUserDTO.github dto
        else User.github (User.socials u)
    | P_twitter =>
        if truthy (UpdateUserDTO.twitter dto)
        then normalize <$> UpdateUserDTO.twitter dto
        else User.twitter (User.socials u)
    | P_instagram =>
        if truthy (UpdateUserDTO.instagram dto)
        then normalize <$> UpdateUserDTO.instagram dto
        else User.instagram (User.socials u)
    | P_linkedin =>
        if truthy (UpdateUserDTO.linkedin dto)
        then normalize <$> UpdateUserDTO.linkedin dto
        else User.linkedin (User.socials u)
    end.
Proof.
  unfold setOf. rewrite !applySet_app.
  destruct p; peel; rewrite ?option_fmap_id; reflexivity.
Qed.

(** C1, as the code has it.  With an absent patch ([undefined] or [null])
    updateUser fails with BadRequest, and the one thing it has done is the
    log entry: no call to the persistence layer, no stored document changed.
    An empty patch object [{}] passes the guard: the handler answers NotFound
    for an unknown id and the success envelope for a known one, and it too
    leaves every stored document as it was. *)
Theorem updateUser_absent_or_empty_patch (normalize : string -> string)
    (id : string) (w : World) :
  let absent := updateUser normalize id None w in
  let empty := updateUser normalize id (Some UpdateUserDTO.empty) w in
  fst absent = inl (BadRequestException (Text "No changes made"))
  /\ issued w (snd absent) = [LoggerError (Text "No changes made")]
  /\ users (snd absent) = users w
  /\ preferences (snd absent) = preferences w
  /\ fst empty
     = match users w !! id with
       | None => inl (NotFoundException (Text "User not found"))
       | Some _ => inr {| status := SUCCESS;
                          message := "Account updated successfully";
                          data := EmptyObject |}
       end
  /\ users (snd empty) = users w
  /\ preferences (snd empty) = preferences w.
Proof.
  intros absent empty. subst absent empty.
  rewrite updateUser_absent_run, updateUser_run, setOf_empty.
  cbn [fst snd]. rewrite issued_logged.
  repeat split.
  - by destruct (users w !! id).
  - destruct (users w !! id) eqn:Hfind; [|reflexivity].
    cbn [snd users withUsers]. by apply alter_id.
  - by destruct (users w !! id).
Qed.

(** C1 fails as stated: the empty patch [{}] for the stored user "u1" is not
    answered with BadRequest but with the success envelope. *)
Lemma updateUser_empty_patch_accepted :
  fst (updateUser startsWithHttp "u1" (Some UpdateUserDTO.empty) Sample.world)
  = inr {| status := SUCCESS;
           message := "Account updated successfully";
           data := EmptyObject |}
  /\ ~ (exists body,
          fst (updateUser startsWithHttp "u1" (Some UpdateUserDTO.empty)
                 Sample.world)
          = inl (BadRequestException body)).
Proof.
  assert (Hrun :
    fst (updateUser startsWithHttp "u1" (Some UpdateUserDTO.empty)
           Sample.world)
    = inr (success "Account updated successfully" EmptyObject))
    by (vm_compute; reflexivity).
  split; [exact Hrun|]. rewrite Hrun. intros [body Hbody]. discriminate.
Qed.

(** C3. For an existing user and a patch, updateUser answers with the
    success envelope and each of the ten profile properties of the stored
    document is overwritten when its value in the patch is present and
    truthy (links go through the normalizer first) and keeps its stored value
    when the patch value is absent or falsy; a patch with bio: "" leaves the
    stored bio as it was, no other user is touched, and under the absent
    patch nothing is stored at all. *)
Theorem updateUser_overwrites_truthy_fields (normalize : string -> string)
    (id : string) (dto : UpdateUserDTO.t) (w : World) (user : User.t) :
  users w !! id = Some user ->
  let w' := snd (updateUser normalize id (Some dto) w) in
  exists user',
    users w' !! id = Some user'
    /\ fst (updateUser normalize id (Some dto) w)
       = inr {| status := SUCCESS;
                message := "Account updated successfully";
                data := EmptyObject |}
    /\ User.bio user'
       = (if truthy (UpdateUserDTO.bio dto) then UpdateUserDTO.bio dto
          else User.bio user)
    /\ User.country user'
       = (if truthy (UpdateUserDTO.country dto) then UpdateUserDTO.country dto
          else User.country user)
    /\ User.city user'
       = (if truthy (UpdateUserDTO.city dto) then UpdateUserDTO.city dto
          else User.city user)
    /\ User.firstName user'
       = (if truthy (UpdateUserDTO.firstName dto)
          then UpdateUserDTO.firstName dto else User.firstName user)
    /\ User.lastName user'
       = (if truthy (UpdateUserDTO.lastName dto)
          then UpdateUserDTO.lastName dto else User.lastName user)
    /\ User.website user'
       = (if truthy (UpdateUserDTO.website dto)
          then normalize <$> UpdateUserDTO.website dto
          else User.website user)
    /\ User.github (User.socials user')
       = (if truthy (UpdateUserDTO.github dto)
          then normalize <$> UpdateUserDTO.github dto
          else User.github (User.socials user))
    /\ User.twitter (User.socials user')
       = (if truthy (UpdateUserDTO.twitter dto)
          then normalize <$> UpdateUserDTO.twitter dto
          else User.twitter (User.socials user))
    /\ User.instagram (User.socials user')
       = (if truthy (UpdateUserDTO.instagram dto)
          then normalize <$> UpdateUserDTO.instagram dto
          else User.instagram (User.socials user))
    /\ User.linkedin (User.socials user')
       = (if truthy (UpdateUserDTO.linkedin dto)
          then normalize <$> UpdateUserDTO.linkedin dto
          else User.linkedin (User.socials user))
    /\ (UpdateUserDTO.bio dto = Some "" -> User.bio user' = User.bio user)
    /\ (forall other, other <> id -> users w' !! other = users w !! other)
    /\ users (snd (updateUser normalize id None w)) = users w.
Proof.
  intros Hfind w'. subst w'.
  rewrite updateUser_absent_run, updateUser_run, Hfind.
  cbn [fst snd users withUsers logged].
  rewrite lookup_alter_eq, Hfind. cbn [fmap option_fmap option_map].
  eexists. split; [reflexivity|]. split; [reflexivity|].
  pose proof (applySet_setOf_paths normalize dto user) as Hpath.
  repeat split;
    try match goal with
        | |- User.bio _ = _ => exact (Hpath P_bio)
        | |- User.country _ = _ => exact (Hpath P_country)
        | |- User.city _ = _ => exact (Hpath P_city)
        | |- User.firstName _ = _ => exact (Hpath P_firstName)
        | |- User.lastName _ = _ => exact (Hpath P_lastName)
        | |- User.website _ = _ => exact (Hpath P_website)
        | |- User.github _ = _ => exact (Hpath P_github)
        | |- User.twitter _ = _ => exact (Hpath P_twitter)
        | |- User.instagram _ = _ => exact (Hpath P_instagram)
        | |- User.linkedin _ = _ => exact (Hpath P_linkedin)
        end.
  - intros Hbio. specialize (Hpath P_bio). rewrite Hbio in Hpath.
    exact Hpath.
  - intros other Hother. by rewrite lookup_alter_ne.
Qed.

Lemma updateUser_overwrites_truthy_fields_witness :
  exists user',
    users (snd (updateUser startsWithHttp "u1"
                  (Some {| UpdateUserDTO.bio := Some "";
                           UpdateUserDTO.country := Some "Kenya";
                           UpdateUserDTO.city := None;
                           UpdateUserDTO.firstName := None;
                           UpdateUserDTO.lastName := None;
                           UpdateUserDTO.website := None;
                           UpdateUserDTO.github := None;
                           UpdateUserDTO.twitter := None;
                           UpdateUserDTO.instagram := None;
                           UpdateUserDTO.linkedin := None |})
                  Sample.world)) !! "u1" = Some user'
    /\ User.bio user' = Some "Analyst"
    /\ User.country user' = Some "Kenya".
Proof.
  destruct (updateUser_overwrites_truthy_fields startsWithHttp "u1"
              {| UpdateUserDTO.bio := Some "";
                 UpdateUserDTO.country := Some "Kenya";
                 UpdateUserDTO.city := None;
                 UpdateUserDTO.firstName := None;
                 UpdateUserDTO.lastName := None;
                 UpdateUserDTO.website := None;
                 UpdateUserDTO.github := None;
                 UpdateUserDTO.twitter := None;
                 UpdateUserDTO.instagram := None;
                 UpdateUserDTO.linkedin := None |}
              Sample.world Sample.ada eq_refl)
    as (user' & Hstored & _ & Hbio & Hcountry & _).
  exists user'. split; [exact Hstored|]. split; [exact Hbio|exact Hcountry].
Defined.

(** C4.  With the normalizer as the spec describes it, updateUser stores a
    present and truthy website, github, twitter, instagram or linkedin value
    of the patch with "https://" put in front when the value carries no
    scheme, and as it is when it carries one: website: "example.com" is
    stored as "https://example.com" and website: "https://example.com" is
    stored unchanged. *)
Theorem updateUser_normalizes_links (id : string) (dto : UpdateUserDTO.t)
    (w : World) (user : User.t) :
  users w !! id = Some user ->
  exists user',
    users (snd (updateUser startsWithHttp id (Some dto) w)) !! id = Some user'
    /\ (forall v, UpdateUserDTO.website dto = Some v -> v <> "" ->
         User.website user'
         = Some (if hasScheme v then v else "https://" ++ v))
    /\ (forall v, UpdateUserDTO.github dto = Some v -> v <> "" ->
         User.github (User.socials user')
         = Some (if hasScheme v then v else "https://" ++ v))
    /\ (forall v, UpdateUserDTO.twitter dto = Some v -> v <> "" ->
         User.twitter (User.socials user')
         = Some (if hasScheme v then v else "https://" ++ v))
    /\ (forall v, UpdateUserDTO.instagram dto = Some v -> v <> "" ->
         User.instagram (User.socials user')
         = Some (if hasScheme v then v else "https://" ++ v))
    /\ (forall v, UpdateUserDTO.linkedin dto = Some v -> v <> "" ->
         User.linkedin (User.socials user')
         = Some (if hasScheme v then v else "https://" ++ v))
    /\ (UpdateUserDTO.website dto = Some "example.com" ->
        User.website user' = Some "https://example.com")
    /\ (UpdateUserDTO.website dto = Some "https://example.com" ->
        User.website user' = Some "https://example.com").
Proof.
  intros Hfind.
  rewrite updateUser_run, Hfind. cbn [snd users withUsers logged].
  rewrite lookup_alter_eq, Hfind. cbn [fmap option_fmap option_map].
  eexists. split; [reflexivity|].
  pose proof (applySet_setOf_paths startsWithHttp dto user) as Hpath.
  assert (Hlink : forall p value v,
    Update.getPath p (Update.applySet (setOf startsWithHttp dto) user)
    = (if truthy value then startsWithHttp <$> value else Update.getPath p user)
    -> value = Some v -> v <> "" ->
    Update.getPath p (Update.applySet (setOf startsWithHttp dto) user)
    = Some (if hasScheme v then v else "https://" ++ v)).
  { intros p value v Hp -> Hv. rewrite Hp, (truthy_Some v Hv). reflexivity. }
  repeat split.
  - intros v. apply (Hlink P_website), (Hpath P_website).
  - intros v. apply (Hlink P_github), (Hpath P_github).
  - intros v. apply (Hlink P_twitter), (Hpath P_twitter).
  - intros v. apply (Hlink P_instagram), (Hpath P_instagram).
  - intros v. apply (Hlink P_linkedin), (Hpath P_linkedin).
  - intros Hweb. specialize (Hpath P_website). rewrite Hweb in Hpath.
    exact Hpath.
  - intros Hweb. specialize (Hpath P_website). rewrite Hweb in Hpath.
    exact Hpath.
Qed.

Lemma updateUser_normalizes_links_witness :
  exists user',
    users (snd (updateUser startsWithHttp "u1"
                  (Some {| UpdateUserDTO.bio := None;
                           UpdateUserDTO.country := None;
                           UpdateUserDTO.city := None;
                           UpdateUserDTO.firstName := None;
                           UpdateUserDTO.lastName := None;
                           UpdateUserDTO.website := Some "example.com";
                           UpdateUserDTO.github := None;
                           UpdateUserDTO.twitter := None;
                           UpdateUserDTO.instagram := None;
                           UpdateUserDTO.linkedin := None |})
                  Sample.world)) !! "u1" = Some user'
    /\ User.website user' = Some "https://example.com".
Proof.
  destruct (updateUser_normalizes_links "u1"
              {| UpdateUserDTO.bio := None;
                 UpdateUserDTO.country := None;
                 UpdateUserDTO.city := None;
                 UpdateUserDTO.firstName := None;
                 UpdateUserDTO.lastName := None;
                 UpdateUserDTO.website := Some "example.com";
                 UpdateUserDTO.github := None;
                 UpdateUserDTO.twitter := None;
                 UpdateUserDTO.instagram := None;
                 UpdateUserDTO.linkedin := None |}
              Sample.world Sample.ada eq_refl)
    as (user' & Hstored & _ & _ & _ & _ & _ & Hexample & _).
  exists user'. split; [exact Hstored|]. apply Hexample. reflexivity.
Defined.

(** C10. For an existing user and any patch, present or absent, the stored
    document keeps its email, password, role and avatar through updateUser:
    the keys of the [$set] object are the ten profile paths, and none of
    them reaches those four properties. *)
Theorem updateUser_keeps_account_fields (normalize : string -> string)
    (id : string) (patch : option UpdateUserDTO.t) (w : World)
    (user : User.t) :
  users w !! id = Some user ->
  exists user',
    users (snd (updateUser normalize id patch w)) !! id = Some user'
    /\ User.email user' = User.email user
    /\ User.password user' = User.password user
    /\ User.role user' = User.role user
    /\ User.avatar user' = User.avatar user.
Proof.
  intros Hfind. destruct patch as [dto|].
  - rewrite updateUser_run, Hfind. cbn [snd users withUsers logged].
    rewrite lookup_alter_eq, Hfind. cbn [fmap option_fmap option_map].
    eexists. split; [reflexivity|].
    apply (applySet_sameAccount (setOf normalize dto) user).
  - rewrite updateUser_absent_run. cbn [snd users logged].
    exists user. by repeat split.
Qed.

Lemma updateUser_keeps_account_fields_witness :
  exists user',
    users (snd (updateUser startsWithHttp "u1"
                  (Some {| UpdateUserDTO.bio := Some "Engineer";
                           UpdateUserDTO.country := None;
                           UpdateUserDTO.city := None;
                           UpdateUserDTO.firstName := None;
                           UpdateUserDTO.lastName := None;
                           UpdateUserDTO.website := None;
                           UpdateUserDTO.github := Some "github.com/ada";
                           UpdateUserDTO.twitter := None;
                           UpdateUserDTO.instagram := None;
                           UpdateUserDTO.linkedin := None |})
                  Sample.world)) !! "u1" = Some user'
    /\ User.email user' = "ada@example.com"
    /\ User.password user' = Some "$2b$10$hash"
    /\ User.role user' = USER
    /\ User.avatar user' = User.avatar Sample.ada.
Proof.
  apply (updateUser_keeps_account_fields startsWithHttp "u1"
           (Some {| UpdateUserDTO.bio := Some "Engineer";
                    UpdateUserDTO.country := None;
                    UpdateUserDTO.city := None;
                    UpdateUserDTO.firstName := None;
                    UpdateUserDTO.lastName := None;
                    UpdateUserDTO.website := None;
                    UpdateUserDTO.github := Some "github.com/ada";
                    UpdateUserDTO.twitter := None;
                    UpdateUserDTO.instagram := None;
                    UpdateUserDTO.linkedin := None |})
           Sample.world Sample.ada).
  reflexivity.
Defined.

(** ** uploadAvatar *)

Section UploadAvatar.
Variable upload : MulterFile.t -> option UploadApiResponse.t.
Variable delete : string -> bool.

Lemma run_deleteImage (publicId : string) (w : World) :
  cloudinary_deleteImage delete publicId w =
  ((if delete publicId then inr tt else inl (Rejection "deleteImage")),
   logged w [DeleteImage publicId]).
Proof.
  unfold cloudinary_deleteImage. rewrite run_bind. simpl.
  by destruct (delete publicId).
Qed.

Lemma run_uploadImage (file : MulterFile.t) (w : World) :
  cloudinary_uploadImage upload file w =
  (match upload file with
   | Some r => inr r
   | None => inl (Rejection "uploadImage")
   end,
   logged w [UploadImage file]).
Proof.
  unfold cloudinary_uploadImage. rewrite run_bind. simpl.
  by destruct (upload file).
Qed.

Lemma run_catch {A} (m : M A) (handler : Exception -> M A) (w : World) :
  catch m handler w =
  match m w with
  | (inl e, w') => handler e w'
  | (inr a, w') => (inr a, w')
  end.
Proof. reflexivity. Qed.

Lemma uploadAvatar_absent_run (id : string) (w : World) :
  uploadAvatar upload delete id None w =
  (inl (BadRequestException (Object (errorRecord "file is empty"))),
   logged w [LoggerError (Object (errorRecord "file is empty"))]).
Proof. unfold uploadAvatar. by run. Qed.

Lemma uploadAvatar_unknown_run (id : string) (file : MulterFile.t)
    (w : World) :
  users w !! id = None ->
  uploadAvatar upload delete id (Some file) w =
  (inl (NotFoundException (Text "User not found")),
   logged w [FindById id;
             LoggerError (Object (errorRecord "User not found"))]).
Proof. intros Hfind. unfold uploadAvatar. run. rewrite Hfind. by run. Qed.

(** The document [uploadAvatar] hands back to the persistence layer. *)
Lemma uploadAvatar_after_delete_run (id : string) (file : MulterFile.t)
    (user : User.t) (w0 w : World) (cs : list Call) :
  w = logged w0 cs ->
  (r ← catch (cloudinary_uploadImage upload file)
         (fun _ =>
            logger_error (Object (errorRecord "file is empty"));;
            throw (BadRequestException (Text "file is empty")));
   document_updateOne id
     (Overwrite
        (Update.withAvatar
           (Some {| User.url := UploadApiResponse.secure_url r;
                    User.publicId := UploadApiResponse.public_id r |})
           user));;
   mret (success "Updated successfully" EmptyObject)) w
  = match upload file with
    | None =>
        (inl (BadRequestException (Text "file is empty")),
         logged w0
           (cs ++ [UploadImage file;
                   LoggerError (Object (errorRecord "file is empty"))]))
    | Some r =>
        let stored :=
          Update.withAvatar
            (Some {| User.url := UploadApiResponse.secure_url r;
                     User.publicId := UploadApiResponse.public_id r |})
            user in
        (inr (success "Updated successfully" EmptyObject),
         withUsers (alter (fun _ => stored) id (users w0))
           (logged w0
              (cs ++ [UploadImage file; UpdateOne id (Overwrite stored)])))
    end.
Proof.
  intros ->. rewrite run_bind, run_catch, run_uploadImage.
  destruct (upload file) as [r|]; run; cbv zeta; rewrite <- ?app_assoc;
    reflexivity.
Qed.

Lemma uploadAvatar_replace_run (id : string) (file : MulterFile.t)
    (user : User.t) (old : User.Avatar) (w : World) :
  users w !! id = Some user ->
  User.avatar user = Some old ->
  User.publicId old <> "" ->
  uploadAvatar upload delete id (Some file) w =
  if delete (User.publicId old) then
    match upload file with
    | None =>
        (inl (BadRequestException (Text "file is empty")),
         logged w
           [FindById id; DeleteImage (User.publicId old); UploadImage file;
            LoggerError (Object (errorRecord "file is empty"))])
    | Some r =>
        let stored :=
          Update.withAvatar
            (Some {| User.url := UploadApiResponse.secure_url r;
                     User.publicId := UploadApiResponse.public_id r |})
            user in
        (inr (success "Updated successfully" EmptyObject),
         withUsers (alter (fun _ => stored) id (users w))
           (logged w
              [FindById id; DeleteImage (User.publicId old);
               UploadImage file; UpdateOne id (Overwrite stored)]))
    end
  else
    (inl (Rejection "deleteImage"),
     logged w [FindById id; DeleteImage (User.publicId old)]).
Proof.
  intros Hfind Hold Hid. unfold uploadAvatar. run. rewrite Hfind.
  rewrite run_bind. unfold deleteOldAvatar.
  rewrite Hold, (truthy_Some _ Hid), run_deleteImage.
  destruct (delete (User.publicId old)); [|by run].
  rewrite logged_logged.
  by rewrite (uploadAvatar_after_delete_run id file user w _ _ eq_refl).
Qed.
End UploadAvatar.

(** Whatever the file, the user and the image store, a call with a file
    starts with the lookup of the user. *)
Lemma uploadAvatar_present_journal
    (upload : MulterFile.t -> option UploadApiResponse.t)
    (delete : string -> bool) (id : string) (file : MulterFile.t)
    (w : World) :
  exists m rest,
    snd (uploadAvatar upload delete id (Some file) w)
    = withUsers m (logged w (FindById id :: rest)).
Proof.
  destruct (users w !! id) as [user|] eqn:Hfind.
  - unfold uploadAvatar. rewrite run_bind, run_findById, Hfind, run_bind.
    assert (Hnext : forall w1 cs,
      w1 = logged w (FindById id :: cs) ->
      exists m rest,
        snd ((r ← catch (cloudinary_uploadImage upload file)
                    (fun _ =>
                       logger_error (Object (errorRecord "file is empty"));;
                       throw (BadRequestException (Text "file is empty")));
              document_updateOne id
                (Overwrite
                   (Update.withAvatar
                      (Some {| User.url := UploadApiResponse.secure_url r;
                               User.publicId :=
                                 UploadApiResponse.public_id r |})
                      user));;
              mret (success "Updated successfully" EmptyObject)) w1)
        = withUsers m (logged w (FindById id :: rest))).
    { intros w1 cs Hw1.
      rewrite (uploadAvatar_after_delete_run upload id file user w w1 _ Hw1).
      destruct (upload file); cbn [snd]; [by do 2 eexists|].
      by exists (users w); eexists. }
    unfold deleteOldAvatar. destruct (User.avatar user) as [old|].
    + destruct (truthy (Some (User.publicId old))).
      * rewrite run_deleteImage, logged_logged.
        destruct (delete (User.publicId old)); [by eapply Hnext|].
        by exists (users w); eexists.
      * rewrite run_ret. by eapply (Hnext _ []).
    + rewrite run_ret. by eapply (Hnext _ []).
  - rewrite (uploadAvatar_unknown_run upload delete id file w Hfind).
    by exists (users w); eexists.
Qed.

(** C5, as the code has it.  Called without a file (the payload is absent),
    uploadAvatar fails with BadRequest and has called neither the persistence
    layer nor the image store: its one call is the log entry.  A file object
    that is present passes the guard whatever its content, and the lookup of
    the user is then the first call made. *)
Theorem uploadAvatar_absent_file
    (upload : MulterFile.t -> option UploadApiResponse.t)
    (delete : string -> bool) (id : string) (w : World) :
  let run := uploadAvatar upload delete id None w in
  fst run = inl (BadRequestException (Object {| status := ERROR;
                                                message := "file is empty";
                                                data := EmptyObject |}))
  /\ issued w (snd run) = [LoggerError (Object
      {| status := ERROR;
         message := "file is empty";
         data := EmptyObject |})]
  /\ existsb isCollaboratorCall (issued w (snd run)) = false
  /\ users (snd run) = users w
  /\ forall file : MulterFile.t,
       exists rest,
         issued w (snd (uploadAvatar upload delete id (Some file) w))
         = FindById id :: rest.
Proof.
  intros run. subst run. rewrite uploadAvatar_absent_run.
  cbn [fst snd]. rewrite issued_logged. repeat split.
  intros file.
  destruct (uploadAvatar_present_journal upload delete id file w)
    as (m & rest & ->).
  exists rest. apply issued_withUsers_logged.
Qed.

(** C5 fails as stated: for the stored user "u1" and a file object whose
    content is empty, the lookup of the user, the deletion of the old asset
    and the upload are all issued before BadRequest is raised. *)
Lemma uploadAvatar_empty_file_calls_collaborators :
  let run :=
    uploadAvatar Sample.upload Sample.delete "u1" (Some Sample.emptyFile)
      Sample.world in
  fst run = inl (BadRequestException (Text "file is empty"))
  /\ issued Sample.world (snd run)
     = [FindById "u1"; DeleteImage "avatars/ada";
        UploadImage Sample.emptyFile;
        LoggerError (Object {| status := ERROR;
                               message := "file is empty";
                               data := EmptyObject |})]
  /\ existsb isCollaboratorCall (issued Sample.world (snd run)) = true.
Proof. vm_compute. by repeat split. Qed.

Lemma uploadAvatar_found_run
    (upload : MulterFile.t -> option UploadApiResponse.t)
    (delete : string -> bool) (id : string) (file : MulterFile.t)
    (user : User.t) (w : World) :
  users w !! id = Some user ->
  uploadAvatar upload delete id (Some file) w =
  let finish (cs : list Call) :=
    match upload file with
    | None =>
        (inl (BadRequestException (Text "file is empty")),
         logged w
           (cs ++ [UploadImage file;
                   LoggerError (Object (errorRecord "file is empty"))]))
    | Some r =>
        let stored :=
          Update.withAvatar
            (Some {| User.url := UploadApiResponse.secure_url r;
                     User.publicId := UploadApiResponse.public_id r |})
            user in
        (inr (success "Updated successfully" EmptyObject),
         withUsers (alter (fun _ => stored) id (users w))
           (logged w
              (cs ++ [UploadImage file; UpdateOne id (Overwrite stored)])))
    end in
  match oldAsset user with
  | Some publicId =>
      if delete publicId then finish [FindById id; DeleteImage publicId]
      else (inl (Rejection "deleteImage"),
            logged w [FindById id; DeleteImage publicId])
  | None => finish [FindById id]
  end.
Proof.
  intros Hfind. cbv zeta. unfold uploadAvatar.
  rewrite run_bind, run_findById, Hfind, run_bind.
  unfold deleteOldAvatar, oldAsset.
  destruct (User.avatar user) as [old|].
  - destruct (truthy (Some (User.publicId old))).
    + rewrite run_deleteImage, logged_logged.
      destruct (delete (User.publicId old)); [|reflexivity].
      by rewrite (uploadAvatar_after_delete_run upload id file user w _ _
                    eq_refl).
    + rewrite run_ret.
      by rewrite (uploadAvatar_after_delete_run upload id file user w _ _
                    eq_refl).
  - rewrite run_ret.
    by rewrite (uploadAvatar_after_delete_run upload id file user w _ _
                  eq_refl).
Qed.

(** C6, as the code has it.  For an existing user with a stored avatar and
    a call with a file: when the publicId of the stored avatar is not empty,
    uploadAvatar asks the image store to delete the old asset first and,
    once that deletion has resolved, to upload the new file, and these are
    its only calls to the image store, in that order; when the upload fails
    the handler fails with BadRequest and no stored document has changed;
    when it succeeds the handler answers with a SUCCESS envelope and the
    stored avatar is the pair (url, id) of the answer, both members present,
    the rest of the document and every other user being as before.  When
    the publicId of the stored avatar is empty, no deletion is asked for:
    the upload is the only call to the image store. *)
Theorem uploadAvatar_replaces_stored_avatar
    (upload : MulterFile.t -> option UploadApiResponse.t)
    (delete : string -> bool) (id : string) (file : MulterFile.t)
    (w : World) (user : User.t) (old : User.Avatar) :
  users w !! id = Some user ->
  User.avatar user = Some old ->
  let run := uploadAvatar upload delete id (Some file) w in
  (User.publicId old <> "" ->
   List.filter isImageStoreCall (issued w (snd run))
   = DeleteImage (User.publicId old)
       :: (if delete (User.publicId old) then [UploadImage file] else [])
   /\ (delete (User.publicId old) = true -> upload file = None ->
       fst run = inl (BadRequestException (Text "file is empty"))
       /\ users (snd run) = users w)
   /\ (forall r : UploadApiResponse.t,
         delete (User.publicId old) = true -> upload file = Some r ->
         (exists envelope,
            fst run = inr envelope
            /\ status envelope = SUCCESS
            /\ data envelope = EmptyObject)
         /\ (exists user',
               users (snd run) !! id = Some user'
               /\ User.avatar user'
                  = Some {| User.url := UploadApiResponse.secure_url r;
                            User.publicId := UploadApiResponse.public_id r |}
               /\ sameButAvatar user user')
         /\ (forall other, other <> id ->
               users (snd run) !! other = users w !! other)))
  /\ (User.publicId old = "" ->
      List.filter isImageStoreCall (issued w (snd run)) = [UploadImage file]).
Proof.
  intros Hfind Hold run. subst run. split.
  - intros Hid.
    rewrite (uploadAvatar_replace_run upload delete id file user old w
               Hfind Hold Hid).
    destruct (delete (User.publicId old)).
    + destruct (upload file) as [r|]; cbv zeta; cbn [fst snd].
      * rewrite issued_withUsers_logged. split; [reflexivity|].
        split; [discriminate|].
        intros r' _ [= <-]. split; [by eexists|].
        cbn [users withUsers]. split.
        -- rewrite lookup_alter_eq, Hfind. cbn [fmap option_fmap option_map].
           eexists. split; [reflexivity|]. split; [reflexivity|].
           by repeat split.
        -- intros other Hother. by rewrite lookup_alter_ne.
      * rewrite issued_logged. split; [reflexivity|].
        split; [done|]. intros r' _. discriminate.
    + cbn [fst snd]. rewrite issued_logged. split; [reflexivity|].
      split; discriminate.
  - intros Hempty.
    assert (Hno : oldAsset user = None)
      by (unfold oldAsset; by rewrite Hold, Hempty).
    rewrite (uploadAvatar_found_run upload delete id file user w Hfind), Hno.
    cbv zeta. destruct (upload file); cbn [snd].
    + by rewrite issued_withUsers_logged.
    + by rewrite issued_logged.
Qed.

Lemma uploadAvatar_replaces_stored_avatar_witness :
  List.filter isImageStoreCall
    (issued Sample.world
       (snd (uploadAvatar Sample.upload Sample.delete "u1"
               (Some Sample.photo) Sample.world)))
  = [DeleteImage "avatars/ada"; UploadImage Sample.photo]
  /\ (exists user',
        users (snd (uploadAvatar Sample.upload Sample.delete "u1"
                      (Some Sample.photo) Sample.world)) !! "u1"
        = Some user'
        /\ User.avatar user'
           = Some {| User.url := "https://img.example/new.png";
                     User.publicId := "avatars/new" |}
        /\ sameButAvatar Sample.ada user').
Proof.
  destruct (uploadAvatar_replaces_stored_avatar Sample.upload Sample.delete
              "u1" Sample.photo Sample.world Sample.ada
              {| User.url := "https://img.example/ada.png";
                 User.publicId := "avatars/ada" |}
              eq_refl eq_refl)
    as (Hfull & _).
  destruct (Hfull ltac:(discriminate)) as (Horder & _ & Hstored).
  split; [exact Horder|].
  exact (proj1 (proj2 (Hstored _ eq_refl eq_refl))).
Defined.

(** C6 fails as stated: the stored user "u3" has an avatar, whose publicId
    is the empty string, and uploadAvatar issues no delete call for it; the
    upload is its only call to the image store. *)
Lemma uploadAvatar_empty_publicId_no_delete :
  let run :=
    uploadAvatar Sample.upload Sample.delete "u3" (Some Sample.photo)
      Sample.world3 in
  (exists old, User.avatar Sample.carol = Some old)
  /\ users Sample.world3 !! "u3" = Some Sample.carol
  /\ issued Sample.world3 (snd run)
     = [FindById "u3"; UploadImage Sample.photo;
        UpdateOne "u3"
          (Overwrite
             (Update.withAvatar
                (Some {| User.url := "https://img.example/new.png";
                         User.publicId := "avatars/new" |})
                Sample.carol))]
  /\ ~ (exists publicId,
          In (DeleteImage publicId) (issued Sample.world3 (snd run))).
Proof.
  intros run.
  assert (Hcalls :
    issued Sample.world3 (snd run)
    = [FindById "u3"; UploadImage Sample.photo;
       UpdateOne "u3"
         (Overwrite
            (Update.withAvatar
               (Some {| User.url := "https://img.example/new.png";
                        User.publicId := "avatars/new" |})
               Sample.carol))])
    by (vm_compute; reflexivity).
  split; [by eexists|]. split; [reflexivity|]. split; [exact Hcalls|].
  rewrite Hcalls. intros (publicId & [Hin|[Hin|[Hin|[]]]]); discriminate.
Qed.

(** ** createUser *)

Lemma createUser_run (assign : gmap string User.t -> string -> string)
    (written : string -> bool) (dto : CreateUserDTO.t) (w : World) :
  createUser assign written dto w =
  (inr tt,
   logged w [LoggerLog "Creating a new user"; Create (documentOf dto);
             LoggerLog "Creating user preferences";
             CreatePreferences (CreateUserDTO.id dto)]).
Proof.
  unfold createUser, preferenceService_createPreferences, userModel_create,
    logger_log, detached, logged.
  cbv [mbind M_bind bind record modifyUsers modifyPreferences throw
       fst snd users preferences calls].
  destruct (written (CreateUserDTO.id dto));
    cbv [fst snd users preferences calls]; rewrite <- ?app_assoc;
    reflexivity.
Qed.

Lemma settle_create (assign : gmap string User.t -> string -> string)
    (dto : CreateUserDTO.t) (w : World) :
  settle (userModel_create assign dto) w =
  (inr tt,
   withUsers
     (<[assign (users w) (CreateUserDTO.id dto) := documentOf dto]> (users w))
     w).
Proof. reflexivity. Qed.

Lemma settle_createPreferences (written : string -> bool) (userId : string)
    (w : World) :
  settle (preferenceService_createPreferences written userId) w =
  (inr tt,
   {| users := users w;
      preferences :=
        if written userId
        then (preferences w ++ [{| Preferences.userId := userId |}])%list
        else preferences w;
      calls := calls w |}).
Proof.
  unfold settle, preferenceService_createPreferences.
  cbv [mbind M_bind bind record modifyPreferences throw fst snd users
       preferences calls].
  by destruct (written userId).
Qed.

(** C2 at the key of the preferences.  Whatever the persistence layer,
    createUser returns normally after issuing, without awaiting either, one
    creation of a user document that carries the input's email and one
    request for a Preferences record keyed by the [id] property of the
    input; it never reads the document that was created.  Once both writes
    have settled, the user is stored under the id the persistence layer
    assigned and the Preferences record is keyed by the input's [id]: when
    the two ids differ and no user was stored under the input's [id], the
    record belongs to no stored user. *)
Theorem createUser_keys_preferences_by_input_id
    (assign : gmap string User.t -> string -> string)
    (written : string -> bool) (dto : CreateUserDTO.t) (w : World) :
  let run := createUser assign written dto w in
  let newId := assign (users w) (CreateUserDTO.id dto) in
  let settled :=
    snd ((settle (userModel_create assign dto);;
          settle (preferenceService_createPreferences written
                    (CreateUserDTO.id dto))) (snd run)) in
  fst run = inr tt
  /\ issued w (snd run)
     = [LoggerLog "Creating a new user"; Create (documentOf dto);
        LoggerLog "Creating user preferences";
        CreatePreferences (CreateUserDTO.id dto)]
  /\ User.email (documentOf dto) = CreateUserDTO.email dto
  /\ users (snd run) = users w
  /\ preferences (snd run) = preferences w
  /\ users settled = <[newId := documentOf dto]> (users w)
  /\ (written (CreateUserDTO.id dto) = true ->
      preferences settled
      = (preferences w
           ++ [{| Preferences.userId := CreateUserDTO.id dto |}])%list)
  /\ (newId <> CreateUserDTO.id dto ->
      users w !! CreateUserDTO.id dto = None ->
      users settled !! newId = Some (documentOf dto)
      /\ users settled !! CreateUserDTO.id dto = None).
Proof.
  intros run newId settled. subst run newId settled.
  rewrite createUser_run. cbn [fst snd]. rewrite issued_logged.
  rewrite run_bind, settle_create. cbv beta iota.
  rewrite settle_createPreferences.
  cbn [fst snd users preferences withUsers logged].
  split; [reflexivity|]. split; [reflexivity|]. split; [reflexivity|].
  split; [reflexivity|]. split; [reflexivity|]. split; [reflexivity|].
  split; [by intros ->|].
  intros Hne Hnone. split; [apply lookup_insert_eq|].
  by rewrite lookup_insert_ne.
Qed.

Lemma createUser_keys_preferences_by_input_id_witness :
  let settled :=
    snd ((settle (userModel_create Sample.objectId Sample.grace);;
          settle (preferenceService_createPreferences (fun _ => true) "42"))
           (snd (createUser Sample.objectId (fun _ => true) Sample.grace
                   Sample.world))) in
  preferences settled = [{| Preferences.userId := "42" |}]
  /\ users settled !! "65a1f0c2" = Some (documentOf Sample.grace)
  /\ users settled !! "42" = None.
Proof.
  destruct (createUser_keys_preferences_by_input_id Sample.objectId
              (fun _ => true) Sample.grace Sample.world)
    as (_ & _ & _ & _ & _ & _ & Hprefs & Hkeys).
  split; [exact (Hprefs eq_refl)|].
  apply Hkeys; [discriminate|reflexivity].
Defined.

(** ** The failing branches and the logger *)

Lemma getUserById_failure_logged (id : string) (w : World) :
  users w !! id = None ->
  errorsLogged (issued w (snd (getUserById id w)))
  = [Object (errorRecord "User not found")].
Proof.
  intros Hfind. rewrite getUserById_run, Hfind. cbn [snd].
  by rewrite issued_logged.
Qed.

Lemma makeAdmin_failure_logged (dto : UserIdDTO.t) (w : World) :
  users w !! UserIdDTO.userId dto = None ->
  errorsLogged (issued w (snd (makeAdmin dto w)))
  = [Object (errorRecord "User not found")].
Proof.
  intros Hfind. rewrite makeAdmin_run. cbv zeta. rewrite Hfind. cbn [snd].
  by rewrite issued_logged.
Qed.

Lemma updateUser_unknown_failure_logged (normalize : string -> string)
    (id : string) (dto : UpdateUserDTO.t) (w : World) :
  users w !! id = None ->
  errorsLogged (issued w (snd (updateUser normalize id (Some dto) w)))
  = [Object (errorRecord "User not found")].
Proof.
  intros Hfind. rewrite updateUser_run, Hfind. cbn [snd].
  by rewrite issued_logged.
Qed.

Lemma uploadAvatar_absent_failure_logged
    (upload : MulterFile.t -> option UploadApiResponse.t)
    (delete : string -> bool) (id : string) (w : World) :
  errorsLogged (issued w (snd (uploadAvatar upload delete id None w)))
  = [Object (errorRecord "file is empty")].
Proof. rewrite uploadAvatar_absent_run. cbn [snd]. by rewrite issued_logged. Qed.

Lemma uploadAvatar_unknown_failure_logged
    (upload : MulterFile.t -> option UploadApiResponse.t)
    (delete : string -> bool) (id : string) (file : MulterFile.t)
    (w : World) :
  users w !! id = None ->
  errorsLogged (issued w (snd (uploadAvatar upload delete id (Some file) w)))
  = [Object (errorRecord "User not found")].
Proof.
  intros Hfind. rewrite (uploadAvatar_unknown_run upload delete id file w Hfind).
  cbn [snd]. by rewrite issued_logged.
Qed.

Lemma uploadAvatar_upload_failure_logged
    (upload : MulterFile.t -> option UploadApiResponse.t)
    (delete : string -> bool) (id : string) (file : MulterFile.t)
    (w : World) (user : User.t) (old : User.Avatar) :
  users w !! id = Some user ->
  User.avatar user = Some old ->
  User.publicId old <> "" ->
  delete (User.publicId old) = true ->
  upload file = None ->
  errorsLogged (issued w (snd (uploadAvatar upload delete id (Some file) w)))
  = [Object (errorRecord "file is empty")].
Proof.
  intros Hfind Hold Hid Hdel Hup.
  rewrite (uploadAvatar_replace_run upload delete id file user old w
             Hfind Hold Hid), Hdel, Hup.
  cbn [snd]. by rewrite issued_logged.
Qed.

(** C9 at updateUser's guard.  With an absent patch updateUser raises
    BadRequest and makes one log entry, and that entry is the bare text
    "No changes made", not a record with a status, a message and a third
    member as every other failing branch of the service logs. *)
Theorem updateUser_absent_patch_logs_bare_text (normalize : string -> string)
    (id : string) (w : World) :
  let run := updateUser normalize id None w in
  fst run = inl (BadRequestException (Text "No changes made"))
  /\ errorsLogged (issued w (snd run)) = [Text "No changes made"]
  /\ forallb isStructured (errorsLogged (issued w (snd run))) = false.
Proof.
  intros run. subst run. rewrite updateUser_absent_run. cbn [fst snd].
  by rewrite issued_logged.
Qed.

(** * Further properties of the handlers *)

(** ** uploadAvatar, every path *)

Lemma withAvatar_sameButAvatar (a : option User.Avatar) (user : User.t) :
  sameButAvatar user (Update.withAvatar a user).
Proof. by repeat split. Qed.

Lemma sameButAvatar_refl (user : User.t) : sameButAvatar user user.
Proof. by repeat split. Qed.

(** X1. With a file but no stored user under the id, uploadAvatar fails with
    NotFound after the lookup and one log entry: the image store is not
    called and nothing stored changes. *)
Theorem uploadAvatar_unknown_user
    (upload : MulterFile.t -> option UploadApiResponse.t)
    (delete : string -> bool) (id : string) (file : MulterFile.t)
    (w : World) :
  users w !! id = None ->
  let run := uploadAvatar upload delete id (Some file) w in
  fst run = inl (NotFoundException (Text "User not found"))
  /\ issued w (snd run)
     = [FindById id; LoggerError (Object {| status := ERROR;
                                            message := "User not found";
                                            data := EmptyObject |})]
  /\ List.filter isImageStoreCall (issued w (snd run)) = []
  /\ users (snd run) = users w
  /\ preferences (snd run) = preferences w.
Proof.
  intros Hfind run. subst run.
  rewrite (uploadAvatar_unknown_run upload delete id file w Hfind).
  cbn [fst snd]. rewrite issued_logged. by repeat split.
Qed.

Lemma uploadAvatar_unknown_user_witness :
  fst (uploadAvatar Sample.upload Sample.delete "nobody" (Some Sample.photo)
         Sample.world)
  = inl (NotFoundException (Text "User not found"))
  /\ List.filter isImageStoreCall
       (issued Sample.world
          (snd (uploadAvatar Sample.upload Sample.delete "nobody"
                  (Some Sample.photo) Sample.world))) = [].
Proof.
  destruct (uploadAvatar_unknown_user Sample.upload Sample.delete "nobody"
              Sample.photo Sample.world eq_refl)
    as (Hfail & _ & Hstore & _).
  split; [exact Hfail|exact Hstore].
Defined.

(** X2. For a stored user with no old asset to delete (no avatar, or an
    avatar whose publicId is empty) uploadAvatar makes one call to the image
    store, the upload: no deletion is asked for.  A successful upload makes
    the answered pair (url, id) the stored avatar and changes nothing else
    of the document; a failed one raises BadRequest and stores nothing. *)
Theorem uploadAvatar_first_avatar
    (upload : MulterFile.t -> option UploadApiResponse.t)
    (delete : string -> bool) (id : string) (file : MulterFile.t)
    (w : World) (user : User.t) :
  users w !! id = Some user ->
  oldAsset user = None ->
  let run := uploadAvatar upload delete id (Some file) w in
  List.filter isImageStoreCall (issued w (snd run)) = [UploadImage file]
  /\ (upload file = None ->
      fst run = inl (BadRequestException (Text "file is empty"))
      /\ users (snd run) = users w)
  /\ (forall r : UploadApiResponse.t,
        upload file = Some r ->
        (exists envelope,
           fst run = inr envelope
           /\ status envelope = SUCCESS
           /\ data envelope = EmptyObject)
        /\ exists user',
             users (snd run) !! id = Some user'
             /\ User.avatar user'
                = Some {| User.url := UploadApiResponse.secure_url r;
                          User.publicId := UploadApiResponse.public_id r |}
             /\ sameButAvatar user user').
Proof.
  intros Hfind Hold run. subst run.
  rewrite (uploadAvatar_found_run upload delete id file user w Hfind), Hold.
  cbv zeta. destruct (upload file) as [r|]; cbn [fst snd].
  - rewrite issued_withUsers_logged. split; [reflexivity|].
    split; [discriminate|]. intros r' [= <-]. split; [by eexists|].
    cbn [users withUsers]. rewrite lookup_alter_eq, Hfind.
    cbn [fmap option_fmap option_map].
    eexists. split; [reflexivity|]. split; [reflexivity|].
    by repeat split.
  - rewrite issued_logged. split; [reflexivity|]. split; [done|].
    intros r' Hr. discriminate.
Qed.

Lemma uploadAvatar_first_avatar_witness :
  List.filter isImageStoreCall
    (issued Sample.world2
       (snd (uploadAvatar Sample.upload Sample.delete "u2"
               (Some Sample.photo) Sample.world2)))
  = [UploadImage Sample.photo]
  /\ (exists user',
        users (snd (uploadAvatar Sample.upload Sample.delete "u2"
                      (Some Sample.photo) Sample.world2)) !! "u2"
        = Some user'
        /\ User.avatar user'
           = Some {| User.url := "https://img.example/new.png";
                     User.publicId := "avatars/new" |}
        /\ sameButAvatar Sample.bob user').
Proof.
  destruct (uploadAvatar_first_avatar Sample.upload Sample.delete "u2"
              Sample.photo Sample.world2 Sample.bob eq_refl eq_refl)
    as (Hcalls & _ & Hstored).
  split; [exact Hcalls|]. exact (proj2 (Hstored _ eq_refl)).
Defined.

(** X3. When the image store rejects the deletion of the old asset,
    uploadAvatar fails with that rejection as it was raised: it is not
    turned into BadRequest, nothing is logged, the upload is never issued
    and nothing stored changes. *)
Theorem uploadAvatar_rejected_delete
    (upload : MulterFile.t -> option UploadApiResponse.t)
    (delete : string -> bool) (id : string) (file : MulterFile.t)
    (w : World) (user : User.t) (publicId : string) :
  users w !! id = Some user ->
  oldAsset user = Some publicId ->
  delete publicId = false ->
  let run := uploadAvatar upload delete id (Some file) w in
  fst run = inl (Rejection "deleteImage")
  /\ issued w (snd run) = [FindById id; DeleteImage publicId]
  /\ errorsLogged (issued w (snd run)) = []
  /\ users (snd run) = users w
  /\ preferences (snd run) = preferences w.
Proof.
  intros Hfind Hold Hdel run. subst run.
  rewrite (uploadAvatar_found_run upload delete id file user w Hfind), Hold.
  cbv zeta. rewrite Hdel. cbn [fst snd]. rewrite issued_logged.
  by repeat split.
Qed.

Lemma uploadAvatar_rejected_delete_witness :
  fst (uploadAvatar Sample.upload Sample.rejectDelete "u1"
         (Some Sample.photo) Sample.world)
  = inl (Rejection "deleteImage")
  /\ issued Sample.world
       (snd (uploadAvatar Sample.upload Sample.rejectDelete "u1"
               (Some Sample.photo) Sample.world))
     = [FindById "u1"; DeleteImage "avatars/ada"].
Proof.
  destruct (uploadAvatar_rejected_delete Sample.upload Sample.rejectDelete
              "u1" Sample.photo Sample.world Sample.ada "avatars/ada"
              eq_refl eq_refl eq_refl)
    as (Hfail & Hcalls & _).
  split; [exact Hfail|exact Hcalls].
Defined.

(** What uploadAvatar can do to the users collection: nothing, or put a
    document that differs from the stored one in its avatar only. *)
Lemma uploadAvatar_users
    (upload : MulterFile.t -> option UploadApiResponse.t)
    (delete : string -> bool) (id : string) (avatar : option MulterFile.t)
    (w : World) :
  let run := uploadAvatar upload delete id avatar w in
  preferences (snd run) = preferences w
  /\ (users (snd run) = users w
      \/ exists user a,
           users w !! id = Some user
           /\ fst run = inr (success "Updated successfully" EmptyObject)
           /\ users (snd run)
              = alter (fun _ => Update.withAvatar a user) id (users w)).
Proof.
  cbv zeta. destruct avatar as [file|].
  - destruct (users w !! id) as [user|] eqn:Hfind.
    + rewrite (uploadAvatar_found_run upload delete id file user w Hfind).
      cbv zeta.
      assert (Hfinish : forall cs,
        let run :=
          match upload file with
          | None =>
              (inl (BadRequestException (Text "file is empty")),
               logged w
                 (cs ++ [UploadImage file;
                         LoggerError (Object (errorRecord "file is empty"))]))
          | Some r =>
              (inr (success "Updated successfully" EmptyObject),
               withUsers
                 (alter
                    (fun _ =>
                       Update.withAvatar
                         (Some {| User.url := UploadApiResponse.secure_url r;
                                  User.publicId :=
                                    UploadApiResponse.public_id r |})
                         user) id (users w))
                 (logged w
                    (cs ++ [UploadImage file;
                            UpdateOne id
                              (Overwrite
                                 (Update.withAvatar
                                    (Some {| User.url :=
                                               UploadApiResponse.secure_url r;
                                             User.publicId :=
                                               UploadApiResponse.public_id r |})
                                    user))])))
          end in
        preferences (snd run) = preferences w
        /\ (users (snd run) = users w
            \/ exists user0 a,
                 Some user = Some user0
                 /\ fst run = inr (success "Updated successfully" EmptyObject)
                 /\ users (snd run)
                    = alter (fun _ => Update.withAvatar a user0) id
                        (users w))).
      { intros cs. cbv zeta. destruct (upload file) as [r|]; cbn [fst snd].
        - split; [reflexivity|]. right. by do 2 eexists.
        - split; [reflexivity|]. by left. }
      destruct (oldAsset user) as [publicId|]; [|apply Hfinish].
      destruct (delete publicId); [apply Hfinish|].
      split; [reflexivity|]. by left.
    + rewrite (uploadAvatar_unknown_run upload delete id file w Hfind).
      split; [reflexivity|]. by left.
  - rewrite uploadAvatar_absent_run. split; [reflexivity|]. by left.
Qed.

(** X4. Whatever its arguments and whatever the image store answers,
    uploadAvatar changes at most the avatar of the user it is called for:
    that user's email, password, role and ten profile properties, every
    other user and the preferences collection are as before, and no user
    appears under an id that had none. *)
Theorem uploadAvatar_changes_only_the_avatar
    (upload : MulterFile.t -> option UploadApiResponse.t)
    (delete : string -> bool) (id : string) (avatar : option MulterFile.t)
    (w : World) :
  let w' := snd (uploadAvatar upload delete id avatar w) in
  preferences w' = preferences w
  /\ (forall other, other <> id -> users w' !! other = users w !! other)
  /\ (forall user, users w !! id = Some user ->
        exists user', users w' !! id = Some user' /\ sameButAvatar user user')
  /\ (users w !! id = None -> users w' !! id = None).
Proof.
  cbv zeta.
  destruct (uploadAvatar_users upload delete id avatar w)
    as (Hprefs & [Hsame | (stored & a & Hfind & _ & Hnew)]).
  - rewrite Hsame. split; [exact Hprefs|]. split; [done|].
    split; [|done]. intros user Huser. exists user.
    split; [exact Huser|apply sameButAvatar_refl].
  - rewrite Hnew. split; [exact Hprefs|].
    split; [intros other Hother; by rewrite lookup_alter_ne|].
    split.
    + intros user Huser. rewrite lookup_alter_eq, Huser. cbn.
      eexists. split; [reflexivity|].
      rewrite Hfind in Huser. injection Huser as <-.
      apply withAvatar_sameButAvatar.
    + intros Hnone. by rewrite lookup_alter_eq, Hnone.
Qed.

Lemma uploadAvatar_changes_only_the_avatar_witness :
  exists user',
    users (snd (uploadAvatar Sample.upload Sample.delete "u1"
                  (Some Sample.photo) Sample.world2)) !! "u1" = Some user'
    /\ sameButAvatar Sample.ada user'.
Proof.
  apply (proj1 (proj2 (proj2 (uploadAvatar_changes_only_the_avatar
                                Sample.upload Sample.delete "u1"
                                (Some Sample.photo) Sample.world2)))).
  reflexivity.
Defined.

(** ** updateUser, every path *)

(** A document is its four account properties and its ten profile
    properties. *)
Lemma document_ext (u u' : User.t) :
  sameAccount u u' ->
  (forall p : Path, Update.getPath p u' = Update.getPath p u) ->
  u' = u.
Proof.
  intros (He & Hp & Hr & Ha) Hpaths.
  pose proof (Hpaths P_bio) as Hbio.
  pose proof (Hpaths P_country) as Hcountry.
  pose proof (Hpaths P_city) as Hcity.
  pose proof (Hpaths P_firstName) as Hfirst.
  pose proof (Hpaths P_lastName) as Hlast.
  pose proof (Hpaths P_website) as Hweb.
  pose proof (Hpaths P_github) as Hgithub.
  pose proof (Hpaths P_twitter) as Htwitter.
  pose proof (Hpaths P_instagram) as Hinstagram.
  pose proof (Hpaths P_linkedin) as Hlinkedin.
  destruct u as [e pw fn ln b co ci ws [g t i l] a r].
  destruct u' as [e' pw' fn' ln' b' co' ci' ws' [g' t' i' l'] a' r'].
  simpl in *. congruence.
Qed.

Lemma applySet_setOf_twice (normalize : string -> string)
    (dto : UpdateUserDTO.t) (u : User.t) :
  Update.applySet (setOf normalize dto)
    (Update.applySet (setOf normalize dto) u)
  = Update.applySet (setOf normalize dto) u.
Proof.
  apply document_ext; [apply applySet_sameAccount|].
  intros p.
  pose proof (applySet_setOf_paths normalize dto u p) as Honce.
  pose proof (applySet_setOf_paths normalize dto
                (Update.applySet (setOf normalize dto) u) p) as Htwice.
  destruct p; cbn [Update.getPath] in *; rewrite Htwice, Honce;
    match goal with |- context [truthy ?c] => by destruct (truthy c) end.
Qed.

Lemma setOf_allFalsy (normalize : string -> string) (dto : UpdateUserDTO.t) :
  allFalsy dto = true -> setOf normalize dto = [].
Proof.
  unfold allFalsy. rewrite !andb_true_iff, !negb_true_iff.
  intros (((((((((Hb & Hco) & Hci) & Hfn) & Hln) & Hw) & Hg) & Ht) & Hi) & Hl).
  assert (Hspread : forall value key f,
            truthy value = false -> spread value key f = [])
    by (intros [v|] key f Hv; unfold spread; [by rewrite Hv|done]).
  unfold setOf.
  by rewrite !Hspread.
Qed.

(** X5. With a patch but no stored user under the id, updateUser fails with
    NotFound after the lookup and one log entry: no update is sent to the
    persistence layer and nothing stored changes. *)
Theorem updateUser_unknown_user (normalize : string -> string) (id : string)
    (dto : UpdateUserDTO.t) (w : World) :
  users w !! id = None ->
  let run := updateUser normalize id (Some dto) w in
  fst run = inl (NotFoundException (Text "User not found"))
  /\ issued w (snd run)
     = [FindById id; LoggerError (Object {| status := ERROR;
                                            message := "User not found";
                                            data := EmptyObject |})]
  /\ List.filter isWrite (issued w (snd run)) = []
  /\ users (snd run) = users w
  /\ preferences (snd run) = preferences w.
Proof.
  intros Hfind run. subst run. rewrite updateUser_run, Hfind.
  cbn [fst snd]. rewrite issued_logged. by repeat split.
Qed.

Lemma updateUser_unknown_user_witness :
  fst (updateUser startsWithHttp "nobody" (Some UpdateUserDTO.empty)
         Sample.world)
  = inl (NotFoundException (Text "User not found"))
  /\ users (snd (updateUser startsWithHttp "nobody"
                   (Some UpdateUserDTO.empty) Sample.world))
     = users Sample.world.
Proof.
  destruct (updateUser_unknown_user startsWithHttp "nobody"
              UpdateUserDTO.empty Sample.world eq_refl)
    as (Hfail & _ & _ & Hsame & _).
  split; [exact Hfail|exact Hsame].
Defined.

(** X6. updateUser is idempotent: sending the same patch for the same id a
    second time gives the same answer and leaves the users and preferences
    collections exactly as the first call left them. *)
Theorem updateUser_idempotent (normalize : string -> string) (id : string)
    (patch : option UpdateUserDTO.t) (w : World) :
  let once := updateUser normalize id patch w in
  let twice := updateUser normalize id patch (snd once) in
  fst twice = fst once
  /\ users (snd twice) = users (snd once)
  /\ preferences (snd twice) = preferences (snd once).
Proof.
  cbv zeta. destruct patch as [dto|].
  - rewrite !updateUser_run.
    destruct (users w !! id) as [user|] eqn:Hfind;
      cbn [fst snd users withUsers logged preferences].
    + rewrite lookup_alter_eq, Hfind. cbn [fmap option_fmap option_map].
      cbn [fst snd users withUsers logged preferences].
      repeat split. apply alter_twice. intros x.
      apply applySet_setOf_twice.
    + rewrite Hfind. by repeat split.
  - rewrite !updateUser_absent_run. by repeat split.
Qed.

(** X7. A patch whose properties are all absent or falsy (such as
    {bio: ""}) is answered with the success envelope for a stored user
    although the [$set] object sent is empty and no stored document
    changes. *)
Theorem updateUser_falsy_patch_changes_nothing (normalize : string -> string)
    (id : string) (dto : UpdateUserDTO.t) (w : World) (user : User.t) :
  allFalsy dto = true ->
  users w !! id = Some user ->
  let run := updateUser normalize id (Some dto) w in
  fst run = inr {| status := SUCCESS;
                   message := "Account updated successfully";
                   data := EmptyObject |}
  /\ issued w (snd run) = [FindById id; UpdateOne id (SetPaths [])]
  /\ users (snd run) = users w.
Proof.
  intros Hfalsy Hfind run. subst run.
  rewrite updateUser_run, Hfind, (setOf_allFalsy normalize dto Hfalsy).
  cbn [fst snd]. rewrite issued_withUsers_logged.
  repeat split. cbn [users withUsers]. by apply alter_id.
Qed.

Lemma updateUser_falsy_patch_changes_nothing_witness :
  fst (updateUser startsWithHttp "u1"
         (Some {| UpdateUserDTO.bio := Some "";
                  UpdateUserDTO.country := None;
                  UpdateUserDTO.city := Some "";
                  UpdateUserDTO.firstName := None;
                  UpdateUserDTO.lastName := None;
                  UpdateUserDTO.website := Some "";
                  UpdateUserDTO.github := None;
                  UpdateUserDTO.twitter := None;
                  UpdateUserDTO.instagram := None;
                  UpdateUserDTO.linkedin := None |})
         Sample.world)
  = inr {| status := SUCCESS;
           message := "Account updated successfully";
           data := EmptyObject |}.
Proof.
  apply (updateUser_falsy_patch_changes_nothing startsWithHttp "u1"
           {| UpdateUserDTO.bio := Some "";
              UpdateUserDTO.country := None;
              UpdateUserDTO.city := Some "";
              UpdateUserDTO.firstName := None;
              UpdateUserDTO.lastName := None;
              UpdateUserDTO.website := Some "";
              UpdateUserDTO.github := None;
              UpdateUserDTO.twitter := None;
              UpdateUserDTO.instagram := None;
              UpdateUserDTO.linkedin := None |}
           Sample.world Sample.ada eq_refl eq_refl).
Defined.

(** X8. updateUser cannot clear a profile property: a property that holds a
    value before the call holds one after it, whatever the patch; and the
    five plain properties (bio, country, city, firstName, lastName) never
    receive the empty string from a patch. *)
Theorem updateUser_never_clears (normalize : string -> string) (id : string)
    (dto : UpdateUserDTO.t) (w : World) (user : User.t) :
  users w !! id = Some user ->
  exists user',
    users (snd (updateUser normalize id (Some dto) w)) !! id = Some user'
    /\ (forall p : Path,
          is_Some (Update.getPath p user) -> is_Some (Update.getPath p user'))
    /\ (forall p : Path,
          In p [P_bio; P_country; P_city; P_firstName; P_lastName] ->
          Update.getPath p user' = Some "" ->
          Update.getPath p user = Some "").
Proof.
  intros Hfind. rewrite updateUser_run, Hfind.
  cbn [snd users withUsers logged]. rewrite lookup_alter_eq, Hfind.
  cbn [fmap option_fmap option_map]. eexists. split; [reflexivity|].
  assert (Hvalue : forall c : option string, truthy c = true -> is_Some c).
  { intros [v|] Hc; [by eexists|discriminate]. }
  assert (Hlink : forall c : option string,
            truthy c = true -> is_Some (normalize <$> c)).
  { intros [v|] Hc; [by eexists|discriminate]. }
  assert (Hplain : forall c : option string,
            truthy c = true -> c <> Some "").
  { intros c Hc ->. discriminate. }
  split.
  - intros p Hsome. rewrite applySet_setOf_paths.
    destruct p;
      match goal with
      | |- context [truthy ?c] =>
          destruct (truthy c) eqn:Hc; [|exact Hsome]
      end;
      solve [ apply (Hvalue _ Hc) | apply (Hlink _ Hc) ].
  - intros p Hp. rewrite applySet_setOf_paths.
    destruct Hp as [<-|[<-|[<-|[<-|[<-|[]]]]]];
      match goal with
      | |- context [truthy ?c] =>
          destruct (truthy c) eqn:Hc; [|done]
      end;
      intros Hempty; by destruct (Hplain _ Hc).
Qed.

Lemma updateUser_never_clears_witness :
  exists user',
    users (snd (updateUser startsWithHttp "u1"
                  (Some {| UpdateUserDTO.bio := Some "";
                           UpdateUserDTO.country := None;
                           UpdateUserDTO.city := None;
                           UpdateUserDTO.firstName := Some "Augusta";
                           UpdateUserDTO.lastName := None;
                           UpdateUserDTO.website := None;
                           UpdateUserDTO.github := None;
                           UpdateUserDTO.twitter := None;
                           UpdateUserDTO.instagram := None;
                           UpdateUserDTO.linkedin := None |})
                  Sample.world)) !! "u1" = Some user'
    /\ is_Some (User.bio user').
Proof.
  destruct (updateUser_never_clears startsWithHttp "u1"
              {| UpdateUserDTO.bio := Some "";
                 UpdateUserDTO.country := None;
                 UpdateUserDTO.city := None;
                 UpdateUserDTO.firstName := Some "Augusta";
                 UpdateUserDTO.lastName := None;
                 UpdateUserDTO.website := None;
                 UpdateUserDTO.github := None;
                 UpdateUserDTO.twitter := None;
                 UpdateUserDTO.instagram := None;
                 UpdateUserDTO.linkedin := None |}
              Sample.world Sample.ada eq_refl)
    as (user' & Hstored & Hkept & _).
  exists user'. split; [exact Hstored|].
  apply (Hkept P_bio). by eexists.
Defined.

(** X9. Whatever its arguments, updateUser sends at most one write to the
    persistence layer and never calls the image store; it creates and
    removes no user, touches no user but the one it is called for, and
    leaves the preferences collection alone. *)
Theorem updateUser_footprint (normalize : string -> string) (id : string)
    (patch : option UpdateUserDTO.t) (w : World) :
  let run := updateUser normalize id patch w in
  length (List.filter isWrite (issued w (snd run))) <= 1
  /\ List.filter isImageStoreCall (issued w (snd run)) = []
  /\ dom (users (snd run)) = dom (users w)
  /\ (forall other, other <> id ->
        users (snd run) !! other = users w !! other)
  /\ preferences (snd run) = preferences w.
Proof.
  cbv zeta. destruct patch as [dto|].
  - rewrite updateUser_run.
    destruct (users w !! id) as [user|]; cbn [fst snd].
    + rewrite issued_withUsers_logged. cbn [users withUsers].
      split; [simpl; lia|]. split; [reflexivity|].
      split; [apply dom_alter_L|].
      split; [|reflexivity]. intros other Hother.
      by rewrite lookup_alter_ne.
    + rewrite issued_logged. split; [simpl; lia|]. by repeat split.
  - rewrite updateUser_absent_run. cbn [fst snd]. rewrite issued_logged.
    split; [simpl; lia|]. by repeat split.
Qed.

(** ** Invariants of the users collection *)

Lemma makeAdmin_users (dto : UserIdDTO.t) (w : World) :
  let run := makeAdmin dto w in
  preferences (snd run) = preferences w
  /\ (users (snd run) = users w /\ (forall r, fst run <> inr r)
      \/ users (snd run)
         = alter (Update.withRole ADMIN) (UserIdDTO.userId dto) (users w)).
Proof.
  cbv zeta. rewrite makeAdmin_run. cbv zeta.
  destruct (users w !! UserIdDTO.userId dto); cbn [fst snd];
    (split; [reflexivity|]); [by right|by left].
Qed.

Lemma updateUser_users (normalize : string -> string) (id : string)
    (patch : option UpdateUserDTO.t) (w : World) :
  let run := updateUser normalize id patch w in
  preferences (snd run) = preferences w
  /\ (users (snd run) = users w /\ (forall r, fst run <> inr r)
      \/ exists kvs,
           users (snd run) = alter (Update.applySet kvs) id (users w)).
Proof.
  cbv zeta. destruct patch as [dto|].
  - rewrite updateUser_run.
    destruct (users w !! id); cbn [fst snd];
      (split; [reflexivity|]); [right; by eexists|by left].
  - rewrite updateUser_absent_run. split; [reflexivity|]. by left.
Qed.

(** A relation between the old and the new version of a document that every
    write of the four request handlers respects is kept, for every stored
    user, by all four handlers. *)
Lemma handlers_keep (Q : User.t -> User.t -> Prop)
    (normalize : string -> string)
    (upload : MulterFile.t -> option UploadApiResponse.t)
    (delete : string -> bool) :
  (forall u, Q u u) ->
  (forall kvs u, Q u (Update.applySet kvs u)) ->
  (forall a u, Q u (Update.withAvatar a u)) ->
  (forall u, Q u (Update.withRole ADMIN u)) ->
  forall (w : World) (j : string) (u : User.t),
    users w !! j = Some u ->
    (forall id,
       exists u', users (snd (getUserById id w)) !! j = Some u' /\ Q u u')
    /\ (forall id patch,
          exists u',
            users (snd (updateUser normalize id patch w)) !! j = Some u'
            /\ Q u u')
    /\ (forall id avatar,
          exists u',
            users (snd (uploadAvatar upload delete id avatar w)) !! j
            = Some u'
            /\ Q u u')
    /\ (forall dto,
          exists u', users (snd (makeAdmin dto w)) !! j = Some u' /\ Q u u').
Proof.
  intros Hrefl Hset Havatar Hrole w j u Hu.
  assert (Halter : forall f id,
            Q u (f u) ->
            exists u', alter f id (users w) !! j = Some u' /\ Q u u').
  { intros f id Hf. destruct (decide (id = j)) as [->|Hne].
    - rewrite lookup_alter_eq, Hu. by eexists.
    - rewrite lookup_alter_ne by done. by eexists. }
  repeat split.
  - intros id. rewrite getUserById_run.
    destruct (users w !! id); cbn [snd users logged]; by eexists.
  - intros id patch.
    destruct (updateUser_users normalize id patch w)
      as (_ & [[-> _] | (kvs & ->)]); [by eexists|].
    apply Halter, Hset.
  - intros id avatar.
    destruct (uploadAvatar_users upload delete id avatar w)
      as (_ & [-> | (stored & a & Hstored & _ & ->)]); [by eexists|].
    destruct (decide (id = j)) as [->|Hne].
    + rewrite lookup_alter_eq, Hu. cbn. eexists. split; [reflexivity|].
      rewrite Hstored in Hu. injection Hu as ->. apply Havatar.
    + rewrite lookup_alter_ne by done. by eexists.
  - intros dto.
    destruct (makeAdmin_users dto w) as (_ & [[-> _] | ->]); [by eexists|].
    apply Halter, Hrole.
Qed.

Lemma applySet_role (kvs : list (Path * string)) (u : User.t) :
  User.role (Update.applySet kvs u) = User.role u.
Proof. by destruct (applySet_sameAccount kvs u) as (_ & _ & Hr & _). Qed.

(** X10. There is no demotion: a stored administrator is still stored, and
    still an administrator, after getUserById, updateUser, uploadAvatar or
    makeAdmin, whatever their arguments and whoever they are called for. *)
Theorem administrators_stay_administrators (normalize : string -> string)
    (upload : MulterFile.t -> option UploadApiResponse.t)
    (delete : string -> bool) (w : World) (admin : string) (user : User.t) :
  users w !! admin = Some user ->
  User.role user = ADMIN ->
  (forall id,
     exists user',
       users (snd (getUserById id w)) !! admin = Some user'
       /\ User.role user' = ADMIN)
  /\ (forall id patch,
        exists user',
          users (snd (updateUser normalize id patch w)) !! admin = Some user'
          /\ User.role user' = ADMIN)
  /\ (forall id avatar,
        exists user',
          users (snd (uploadAvatar upload delete id avatar w)) !! admin
          = Some user'
          /\ User.role user' = ADMIN)
  /\ (forall dto,
        exists user',
          users (snd (makeAdmin dto w)) !! admin = Some user'
          /\ User.role user' = ADMIN).
Proof.
  intros Hstored Hadmin.
  destruct (handlers_keep (fun u u' => User.role u = ADMIN ->
                                       User.role u' = ADMIN)
              normalize upload delete) with (w := w) (j := admin) (u := user)
    as (Hget & Hupdate & Hupload & Hmake); try done.
  - intros kvs u. by rewrite applySet_role.
  - repeat split.
    + intros id. destruct (Hget id) as (u' & Hu' & Hrole). eauto.
    + intros id patch. destruct (Hupdate id patch) as (u' & Hu' & Hrole).
      eauto.
    + intros id avatar. destruct (Hupload id avatar) as (u' & Hu' & Hrole).
      eauto.
    + intros dto. destruct (Hmake dto) as (u' & Hu' & Hrole). eauto.
Qed.

Lemma administrators_stay_administrators_witness :
  exists user',
    users (snd (updateUser startsWithHttp "u2"
                  (Some UpdateUserDTO.empty) Sample.world2)) !! "u2"
    = Some user'
    /\ User.role user' = ADMIN.
Proof.
  apply (proj1 (proj2 (administrators_stay_administrators startsWithHttp
                         Sample.upload Sample.delete Sample.world2 "u2"
                         Sample.bob eq_refl eq_refl))).
Defined.

(** X11. No request handler removes an account or changes its identity:
    every stored user is still stored, with the same email and the same
    password, after getUserById, updateUser, uploadAvatar or makeAdmin,
    whatever their arguments. *)
Theorem accounts_keep_identity (normalize : string -> string)
    (upload : MulterFile.t -> option UploadApiResponse.t)
    (delete : string -> bool) (w : World) (uid : string) (user : User.t) :
  users w !! uid = Some user ->
  (forall id,
     exists user',
       users (snd (getUserById id w)) !! uid = Some user'
       /\ User.email user' = User.email user
       /\ User.password user' = User.password user)
  /\ (forall id patch,
        exists user',
          users (snd (updateUser normalize id patch w)) !! uid = Some user'
          /\ User.email user' = User.email user
          /\ User.password user' = User.password user)
  /\ (forall id avatar,
        exists user',
          users (snd (uploadAvatar upload delete id avatar w)) !! uid
          = Some user'
          /\ User.email user' = User.email user
          /\ User.password user' = User.password user)
  /\ (forall dto,
        exists user',
          users (snd (makeAdmin dto w)) !! uid = Some user'
          /\ User.email user' = User.email user
          /\ User.password user' = User.password user).
Proof.
  intros Hstored.
  apply (handlers_keep
           (fun u u' => User.email u' = User.email u
                        /\ User.password u' = User.password u)
           normalize upload delete); try done.
  intros kvs u.
  by destruct (applySet_sameAccount kvs u) as (He & Hp & _ & _).
Qed.

Lemma accounts_keep_identity_witness :
  exists user',
    users (snd (makeAdmin {| UserIdDTO.userId := "u1" |} Sample.world2))
    !! "u1" = Some user'
    /\ User.email user' = "ada@example.com"
    /\ User.password user' = Some "$2b$10$hash".
Proof.
  apply (proj2 (proj2 (proj2 (accounts_keep_identity startsWithHttp
                                Sample.upload Sample.delete Sample.world2
                                "u1" Sample.ada eq_refl)))).
Defined.

(** X12. A request that fails changes nothing: whenever getUserById,
    updateUser, uploadAvatar or makeAdmin raises an exception, the users and
    the preferences collections are exactly as they were before the call. *)
Theorem failed_requests_change_nothing (normalize : string -> string)
    (upload : MulterFile.t -> option UploadApiResponse.t)
    (delete : string -> bool) (w : World) (e : Exception) :
  (forall id,
     fst (getUserById id w) = inl e ->
     users (snd (getUserById id w)) = users w
     /\ preferences (snd (getUserById id w)) = preferences w)
  /\ (forall id patch,
        fst (updateUser normalize id patch w) = inl e ->
        users (snd (updateUser normalize id patch w)) = users w
        /\ preferences (snd (updateUser normalize id patch w))
           = preferences w)
  /\ (forall id avatar,
        fst (uploadAvatar upload delete id avatar w) = inl e ->
        users (snd (uploadAvatar upload delete id avatar w)) = users w
        /\ preferences (snd (uploadAvatar upload delete id avatar w))
           = preferences w)
  /\ (forall dto,
        fst (makeAdmin dto w) = inl e ->
        users (snd (makeAdmin dto w)) = users w
        /\ preferences (snd (makeAdmin dto w)) = preferences w).
Proof.
  split; [|split; [|split]].
  - intros id _. rewrite getUserById_run. by destruct (users w !! id).
  - intros id patch Hfail.
    destruct (updateUser_users normalize id patch w)
      as (Hprefs & [[Hsame _] | (kvs & Hnew)]); [done|].
    split; [|exact Hprefs]. revert Hfail. destruct patch as [dto|].
    + rewrite updateUser_run. by destruct (users w !! id).
    + by rewrite updateUser_absent_run.
  - intros id avatar Hfail.
    destruct (uploadAvatar_users upload delete id avatar w)
      as (Hprefs & [Hsame | (stored & a & _ & Hok & _)]); [done|].
    rewrite Hok in Hfail. discriminate.
  - intros dto Hfail.
    destruct (makeAdmin_users dto w) as (Hprefs & _).
    split; [|exact Hprefs]. revert Hfail. rewrite makeAdmin_run. cbv zeta.
    by destruct (users w !! UserIdDTO.userId dto).
Qed.

Lemma failed_requests_change_nothing_witness :
  users (snd (uploadAvatar Sample.upload Sample.delete "u1"
                (Some Sample.emptyFile) Sample.world))
  = users Sample.world
  /\ preferences (snd (uploadAvatar Sample.upload Sample.delete "u1"
                         (Some Sample.emptyFile) Sample.world))
     = preferences Sample.world.
Proof.
  apply (proj1 (proj2 (proj2 (failed_requests_change_nothing startsWithHttp
                                Sample.upload Sample.delete Sample.world
                                (BadRequestException
                                   (Text "file is empty")))))
           "u1" (Some Sample.emptyFile)).
  reflexivity.
Defined.

(** ** Reading after writing *)

(** X13. getUserById returns what the last successful write stored: after
    makeAdmin the document with the administrator role, after updateUser the
    document with the [$set] object applied, after a successful uploadAvatar
    the document with the new avatar pair. *)
Theorem getUserById_after_write (normalize : string -> string)
    (upload : MulterFile.t -> option UploadApiResponse.t)
    (delete : string -> bool) (id : string) (w : World) (user : User.t) :
  users w !! id = Some user ->
  fst (getUserById id (snd (makeAdmin {| UserIdDTO.userId := id |} w)))
  = inr {| status := SUCCESS; message := "";
           data := UserDocument (Update.withRole ADMIN user) |}
  /\ (forall dto,
        fst (getUserById id (snd (updateUser normalize id (Some dto) w)))
        = inr {| status := SUCCESS; message := "";
                 data :=
                   UserDocument
                     (Update.applySet (setOf normalize dto) user) |})
  /\ (forall file r,
        fst (uploadAvatar upload delete id (Some file) w)
        = inr {| status := SUCCESS; message := "Updated successfully";
                 data := EmptyObject |} ->
        upload file = Some r ->
        fst (getUserById id
               (snd (uploadAvatar upload delete id (Some file) w)))
        = inr {| status := SUCCESS; message := "";
                 data :=
                   UserDocument
                     (Update.withAvatar
                        (Some {| User.url := UploadApiResponse.secure_url r;
                                 User.publicId :=
                                   UploadApiResponse.public_id r |})
                        user) |}).
Proof.
  intros Hfind. split; [|split].
  - rewrite makeAdmin_run. cbv zeta. cbn [UserIdDTO.userId].
    rewrite Hfind. cbn [snd]. rewrite getUserById_run.
    cbn [users withUsers]. by rewrite lookup_alter_eq, Hfind.
  - intros dto. rewrite updateUser_run, Hfind. cbn [snd].
    rewrite getUserById_run. cbn [users withUsers].
    by rewrite lookup_alter_eq, Hfind.
  - intros file r Hok Hup.
    rewrite (uploadAvatar_found_run upload delete id file user w Hfind)
      in Hok |- *.
    cbv zeta in Hok |- *. rewrite Hup in Hok |- *.
    destruct (oldAsset user) as [publicId|].
    + destruct (delete publicId); [|discriminate Hok].
      cbn [snd]. rewrite getUserById_run. cbn [users withUsers].
      by rewrite lookup_alter_eq, Hfind.
    + cbn [snd]. rewrite getUserById_run. cbn [users withUsers].
      by rewrite lookup_alter_eq, Hfind.
Qed.

Lemma getUserById_after_write_witness :
  fst (getUserById "u1"
         (snd (makeAdmin {| UserIdDTO.userId := "u1" |} Sample.world)))
  = inr {| status := SUCCESS; message := "";
           data := UserDocument (Update.withRole ADMIN Sample.ada) |}.
Proof.
  apply (proj1 (getUserById_after_write startsWithHttp Sample.upload
                  Sample.delete "u1" Sample.world Sample.ada eq_refl)).
Defined.

(** ** Sign-up and lookup by email *)

Section SignUpProperties.
Variable hashPassword : string -> string.
Variable generateId : gmap string User.t -> string.

Lemma createDocument_run (doc : User.t) (w : World) :
  userModel_createDocument generateId doc w =
  (inr (generateId (users w), doc),
   withUsers (<[generateId (users w) := doc]> (users w))
     (logged w [Create doc])).
Proof. reflexivity. Qed.

Lemma signUpWithEmailAndPassword_run
    (dto : SignupWithEmailAndPasswordDTO.t) (w : World) :
  signUpWithEmailAndPassword hashPassword generateId dto w =
  let doc :=
    credentialsDocument (SignupWithEmailAndPasswordDTO.email dto)
      (hashPassword (SignupWithEmailAndPasswordDTO.password dto)) in
  (inr (generateId (users w), doc),
   withUsers (<[generateId (users w) := doc]> (users w))
     (logged w [Create doc])).
Proof. reflexivity. Qed.

Lemma signUpwithGoogle_run (SignupWithGoogleDTO : Type)
    (googleDocument : SignupWithGoogleDTO -> User.t)
    (dto : SignupWithGoogleDTO) (w : World) :
  signUpwithGoogle generateId SignupWithGoogleDTO googleDocument dto w =
  (inr (generateId (users w), googleDocument dto),
   withUsers
     (<[generateId (users w) := googleDocument dto]> (users w))
     (logged w [LoggerLog "Creating a new user";
                Create (googleDocument dto)])).
Proof.
  unfold signUpwithGoogle, logger_log. rewrite run_bind.
  change (record (LoggerLog "Creating a new user") w)
    with (@inr Exception unit tt,
          logged w [LoggerLog "Creating a new user"]).
  cbv beta iota. rewrite createDocument_run. unfold withUsers, logged.
  cbn [users preferences calls]. by rewrite <- app_assoc.
Qed.
End SignUpProperties.

(** X15. signUpWithEmailAndPassword answers with the created document and
    its id; that document is stored under that id, carries the email of the
    input and, as its password, the hash of the input's password; the one
    write made is that creation, every other user is untouched, and no
    Preferences record is created. *)
Theorem signUpWithEmailAndPassword_stores_hash
    (hashPassword : string -> string)
    (generateId : gmap string User.t -> string)
    (dto : SignupWithEmailAndPasswordDTO.t) (w : World) :
  let run := signUpWithEmailAndPassword hashPassword generateId dto w in
  exists newId doc,
    fst run = inr (newId, doc)
    /\ users (snd run) !! newId = Some doc
    /\ User.email doc = SignupWithEmailAndPasswordDTO.email dto
    /\ User.password doc
       = Some (hashPassword (SignupWithEmailAndPasswordDTO.password dto))
    /\ List.filter isWrite (issued w (snd run)) = [Create doc]
    /\ (forall other, other <> newId ->
          users (snd run) !! other = users w !! other)
    /\ preferences (snd run) = preferences w.
Proof.
  cbv zeta. rewrite signUpWithEmailAndPassword_run. cbv zeta.
  do 2 eexists. cbn [fst snd]. rewrite issued_withUsers_logged.
  cbn [users withUsers]. split; [reflexivity|].
  split; [apply lookup_insert_eq|]. repeat split.
  intros other Hother. by rewrite lookup_insert_ne.
Qed.

(** X16. signUpwithGoogle logs one line, creates one user document from the
    payload and answers with it and its id; that creation is its only write:
    unlike createUser it never asks for a Preferences record, and the
    preferences collection and every other user are as before. *)
Theorem signUpwithGoogle_creates_no_preferences
    (generateId : gmap string User.t -> string)
    (SignupWithGoogleDTO : Type)
    (googleDocument : SignupWithGoogleDTO -> User.t)
    (dto : SignupWithGoogleDTO) (w : World) :
  let run :=
    signUpwithGoogle generateId SignupWithGoogleDTO googleDocument dto w in
  fst run = inr (generateId (users w), googleDocument dto)
  /\ users (snd run) !! generateId (users w) = Some (googleDocument dto)
  /\ issued w (snd run)
     = [LoggerLog "Creating a new user"; Create (googleDocument dto)]
  /\ (forall userId, ~ In (CreatePreferences userId) (issued w (snd run)))
  /\ (forall other, other <> generateId (users w) ->
        users (snd run) !! other = users w !! other)
  /\ preferences (snd run) = preferences w.
Proof.
  cbv zeta. rewrite signUpwithGoogle_run. cbn [fst snd].
  rewrite issued_withUsers_logged. cbn [users withUsers].
  split; [reflexivity|]. split; [apply lookup_insert_eq|].
  split; [reflexivity|]. split.
  - intros userId [Hin|[Hin|[]]]; discriminate.
  - split; [|reflexivity]. intros other Hother.
    by rewrite lookup_insert_ne.
Qed.

Lemma getUserByEmail_run (email : string) (w : World) :
  getUserByEmail email w =
  (inr (List.find (fun kv => String.eqb (User.email (snd kv)) email)
          (map_to_list (users w))), w).
Proof. reflexivity. Qed.

Lemma findOne_by_email (email : string) (m : gmap string User.t) :
  let found :=
    List.find (fun kv => String.eqb (User.email (snd kv)) email)
      (map_to_list m) in
  (forall id user,
     found = Some (id, user) ->
     m !! id = Some user /\ User.email user = email)
  /\ (found = None ->
      forall id user, m !! id = Some user -> User.email user <> email).
Proof.
  cbv zeta. split.
  - intros id user Hfound. apply find_some in Hfound as [Hin Heq].
    apply list_elem_of_In, elem_of_map_to_list in Hin.
    split; [exact Hin|]. by apply String.eqb_eq in Heq.
  - intros Hnone id user Hstored Hemail.
    pose proof (find_none _ _ Hnone (id, user)) as Hno.
    cbn [snd] in Hno. rewrite Hemail, String.eqb_refl in Hno.
    assert (Hin : In (id, user) (map_to_list m))
      by by apply list_elem_of_In, elem_of_map_to_list.
    specialize (Hno Hin). discriminate.
Qed.

(** X17. getUserByEmail never raises and changes nothing.  When it answers
    with a document, that document is stored under the answered id and has
    the email asked for; when it answers null, no stored user has that
    email. *)
Theorem getUserByEmail_finds_by_email (email : string) (w : World) :
  exists found,
    getUserByEmail email w = (inr found, w)
    /\ (forall id user,
          found = Some (id, user) ->
          users w !! id = Some user /\ User.email user = email)
    /\ (found = None ->
        forall id user, users w !! id = Some user ->
                        User.email user <> email).
Proof.
  rewrite getUserByEmail_run. eexists. split; [reflexivity|].
  apply findOne_by_email.
Qed.

Lemma getUserByEmail_finds_by_email_witness :
  users Sample.world2 !! "u1" = Some Sample.ada
  /\ User.email Sample.ada = "ada@example.com".
Proof.
  destruct (getUserByEmail_finds_by_email "ada@example.com" Sample.world2)
    as (found & Hrun & Hsome & _).
  apply (Hsome "u1" Sample.ada).
  assert (Heval : getUserByEmail "ada@example.com" Sample.world2
                  = (inr (Some ("u1", Sample.ada)), Sample.world2))
    by (vm_compute; reflexivity).
  congruence.
Defined.

(** X18. After signUpWithEmailAndPassword, getUserByEmail with the email of
    the sign-up answers with a stored account that has this email, so the
    credential lookup of a later login finds one. *)
Theorem signUp_then_getUserByEmail (hashPassword : string -> string)
    (generateId : gmap string User.t -> string)
    (dto : SignupWithEmailAndPasswordDTO.t) (w : World) :
  let w' := snd (signUpWithEmailAndPassword hashPassword generateId dto w) in
  exists id user,
    fst (getUserByEmail (SignupWithEmailAndPasswordDTO.email dto) w')
    = inr (Some (id, user))
    /\ users w' !! id = Some user
    /\ User.email user = SignupWithEmailAndPasswordDTO.email dto.
Proof.
  cbv zeta. rewrite signUpWithEmailAndPassword_run. cbv zeta. cbn [snd].
  rewrite getUserByEmail_run. cbn [fst users withUsers].
  match goal with
  | |- context [List.find ?f (map_to_list ?m)] =>
      destruct (findOne_by_email (SignupWithEmailAndPasswordDTO.email dto) m)
        as (Hsome & Hnone);
      destruct (List.find f (map_to_list m)) as [[id user]|]
  end.
  - exists id, user. split; [reflexivity|]. by apply Hsome.
  - exfalso.
    apply (Hnone eq_refl (generateId (users w))
             (credentialsDocument (SignupWithEmailAndPasswordDTO.email dto)
                (hashPassword (SignupWithEmailAndPasswordDTO.password dto)))).
    + apply lookup_insert_eq.
    + reflexivity.
Qed.

(** ** Successive uploads *)

(** X19. Two uploads in a row leave no asset behind: after a successful
    uploadAvatar that stored an asset with a non-empty id, the next
    uploadAvatar for the same user first asks the image store to delete
    exactly that asset, and uploads the new file only once the deletion has
    resolved. *)
Theorem uploadAvatar_twice_deletes_previous_asset
    (upload : MulterFile.t -> option UploadApiResponse.t)
    (delete : string -> bool) (id : string) (first second : MulterFile.t)
    (w : World) (user : User.t) (r : UploadApiResponse.t) :
  users w !! id = Some user ->
  fst (uploadAvatar upload delete id (Some first) w)
  = inr {| status := SUCCESS;
           message := "Updated successfully";
           data := EmptyObject |} ->
  upload first = Some r ->
  UploadApiResponse.public_id r <> "" ->
  let w1 := snd (uploadAvatar upload delete id (Some first) w) in
  List.filter isImageStoreCall
    (issued w1 (snd (uploadAvatar upload delete id (Some second) w1)))
  = DeleteImage (UploadApiResponse.public_id r)
      :: (if delete (UploadApiResponse.public_id r)
          then [UploadImage second] else []).
Proof.
  intros Hfind Hok Hup Hid w1.
  assert (Hstored :
    users w1 !! id
    = Some (Update.withAvatar
              (Some {| User.url := UploadApiResponse.secure_url r;
                       User.publicId := UploadApiResponse.public_id r |})
              user)).
  { subst w1. revert Hok.
    rewrite (uploadAvatar_found_run upload delete id first user w Hfind).
    cbv zeta. rewrite Hup.
    destruct (oldAsset user) as [publicId|].
    - destruct (delete publicId); [|discriminate].
      intros _. cbn [snd users withUsers].
      by rewrite lookup_alter_eq, Hfind.
    - intros _. cbn [snd users withUsers].
      by rewrite lookup_alter_eq, Hfind. }
  rewrite (uploadAvatar_replace_run upload delete id second _
             {| User.url := UploadApiResponse.secure_url r;
                User.publicId := UploadApiResponse.public_id r |}
             w1 Hstored eq_refl Hid).
  cbn [User.publicId].
  destruct (delete (UploadApiResponse.public_id r)).
  - destruct (upload second); cbv zeta; cbn [snd].
    + by rewrite issued_withUsers_logged.
    + by rewrite issued_logged.
  - cbn [snd]. by rewrite issued_logged.
Qed.

Lemma uploadAvatar_twice_deletes_previous_asset_witness :
  List.filter isImageStoreCall
    (issued
       (snd (uploadAvatar Sample.upload Sample.delete "u2"
               (Some Sample.photo) Sample.world2))
       (snd (uploadAvatar Sample.upload Sample.delete "u2"
               (Some Sample.photo)
               (snd (uploadAvatar Sample.upload Sample.delete "u2"
                       (Some Sample.photo) Sample.world2)))))
  = [DeleteImage "avatars/new"; UploadImage Sample.photo].
Proof.
  apply (uploadAvatar_twice_deletes_previous_asset Sample.upload
           Sample.delete "u2" Sample.photo Sample.photo Sample.world2
           Sample.bob
           {| UploadApiResponse.secure_url := "https://img.example/new.png";
              UploadApiResponse.public_id := "avatars/new" |}
           eq_refl eq_refl eq_refl).
  discriminate.
Defined.
